(** * study-together-server: the Express routes of [index.js] over a document store

    The server of [index.js] registers thirteen routes on an Express
    application.  Each handler reads the request, talks to a MongoDB
    collection through the driver and writes one response.  This file embeds
    the handlers as computations in a small state-and-exception monad whose
    state holds the database, the log of the database calls issued and the
    responses sent, and proves what the handlers do.

    The code of the repository is [verifyToken] and the handlers.  The
    driver, the store, the identity-token verifier, the clock and the
    regular-expression engine are external: the verifier, the clock, the
    generated object id, the regular-expression test and the faults of the
    store are fields of the environment [env]; the store itself is given a
    reference model ([db_exec]) for the calls the handlers issue. *)

From Stdlib Require Import String Ascii List ZArith Bool Arith Lia.
Import ListNotations.
Open Scope string_scope.
Open Scope list_scope.
Open Scope nat_scope.

(** ** JavaScript values *)

(** The values a request, a document or a response body can hold.  A
    number is an integer ([VNum]), an infinity ([VInf], negative when the
    flag is set) or [NaN]; fractional numbers are outside the model.  A
    string is a UTF-8 text.  [VDate] is a [Date] by its epoch milliseconds
    and [VOid] an [ObjectId] by its lower-case hexadecimal text.  An object
    is the list of its own properties in insertion order, as in JavaScript
    and in BSON. *)
#[warnings="-register-all"]
Inductive value : Type :=
| VUndef
| VNull
| VBool (b : bool)
| VNum (n : Z)
| VInf (neg : bool)
| VNaN
| VStr (s : string)
| VDate (t : Z)
| VOid (o : string)
| VArr (l : list value)
| VObj (fields : list (string * value)).

Definition obj := list (string * value).

(** Structural equality of two values (the store compares BSON values by
    content; field order matters in embedded documents). *)
Fixpoint value_eqb (a b : value) : bool :=
  match a, b with
  | VUndef, VUndef => true
  | VNull, VNull => true
  | VBool x, VBool y => Bool.eqb x y
  | VNum x, VNum y => Z.eqb x y
  | VInf x, VInf y => Bool.eqb x y
  | VNaN, VNaN => true
  | VStr x, VStr y => String.eqb x y
  | VDate x, VDate y => Z.eqb x y
  | VOid x, VOid y => String.eqb x y
  | VArr l, VArr m =>
      (fix go (l m : list value) : bool :=
         match l, m with
         | [], [] => true
         | x :: l', y :: m' => value_eqb x y && go l' m'
         | _, _ => false
         end) l m
  | VObj f, VObj g =>
      (fix go (f g : obj) : bool :=
         match f, g with
         | [], [] => true
         | (k, x) :: f', (k', y) :: g' =>
             String.eqb k k' && value_eqb x y && go f' g'
         | _, _ => false
         end) f g
  | _, _ => false
  end.

(** [ToBoolean]: what [!x] and [if (x)] test. *)
Definition truthy (v : value) : bool :=
  match v with
  | VUndef | VNull => false
  | VBool b => b
  | VNum n => negb (Z.eqb n 0)
  | VNaN => false
  | VStr s => negb (String.eqb s "")
  | VInf _ | VDate _ | VOid _ | VArr _ | VObj _ => true
  end.

(** [a === b] for two operands that are not the same object: primitives are
    compared by value, two objects (dates, ids, arrays, objects) are never
    strictly equal.  The handlers only compare a value read from a document
    with a value parsed from the request, which never alias. *)
Definition strict_eq (a b : value) : bool :=
  match a, b with
  | VUndef, VUndef => true
  | VNull, VNull => true
  | VBool x, VBool y => Bool.eqb x y
  | VNum x, VNum y => Z.eqb x y
  | VInf x, VInf y => Bool.eqb x y
  | VStr x, VStr y => String.eqb x y
  | _, _ => false
  end.

(** Own property [k] of an object; [undefined] when absent. *)
Fixpoint obj_get (fs : obj) (k : string) : value :=
  match fs with
  | [] => VUndef
  | (k', v) :: r => if String.eqb k k' then v else obj_get r k
  end.

Fixpoint obj_has (fs : obj) (k : string) : bool :=
  match fs with
  | [] => false
  | (k', _) :: r => String.eqb k k' || obj_has r k
  end.

(** [o[k] = v]: an existing property keeps its place, a new one is added
    last. *)
Fixpoint obj_set (fs : obj) (k : string) (v : value) : obj :=
  match fs with
  | [] => [(k, v)]
  | (k', w) :: r =>
      if String.eqb k k' then (k', v) :: r else (k', w) :: obj_set r k v
  end.

Fixpoint obj_remove (fs : obj) (k : string) : obj :=
  match fs with
  | [] => []
  | (k', w) :: r =>
      if String.eqb k k' then obj_remove r k else (k', w) :: obj_remove r k
  end.

(** [v.k] for a property name that is neither an index nor built in (the
    handlers read [name], [image], [email], [text], [title], [creator], ...):
    a [TypeError] ([None]) on [undefined] and [null], the own property of an
    object, [undefined] on every other value. *)
Definition get_prop (v : value) (k : string) : option value :=
  match v with
  | VUndef | VNull => None
  | VObj fs => Some (obj_get fs k)
  | _ => Some VUndef
  end.

(** The message of [v.k] on [undefined] and [null]. *)
Definition nullish_name (v : value) : string :=
  match v with
  | VNull => "null"
  | _ => "undefined"
  end.

Definition TypeError (v : value) (k : string) : string :=
  ("Cannot read properties of " ++ nullish_name v ++ " (reading '" ++ k
   ++ "')")%string.

(** [v?.k]. *)
Definition get_prop_opt (v : value) (k : string) : value :=
  match get_prop v k with
  | Some x => x
  | None => VUndef
  end.

(** Decimal text of a natural number, for the index keys of an array. *)
Definition digit_of_nat (n : nat) : ascii :=
  ascii_of_nat (48 + n).

Fixpoint nat_to_string_aux (fuel n : nat) (acc : string) : string :=
  match fuel with
  | O => acc
  | S fuel' =>
      let acc' := String (digit_of_nat (n mod 10)) acc in
      match n / 10 with
      | O => acc'
      | q => nat_to_string_aux fuel' q acc'
      end
  end.

Definition nat_to_string (n : nat) : string :=
  nat_to_string_aux (S n) n "".

Definition Z_to_string (z : Z) : string :=
  if Z.ltb z 0 then ("-" ++ nat_to_string (Z.abs_nat z))%string
  else nat_to_string (Z.abs_nat z).

Fixpoint index_from (i : nat) (l : list value) : obj :=
  match l with
  | [] => []
  | x :: r => (nat_to_string i, x) :: index_from (S i) r
  end.

Fixpoint chars_from (i : nat) (s : string) : obj :=
  match s with
  | EmptyString => []
  | String c r => (nat_to_string i, VStr (String c EmptyString)) :: chars_from (S i) r
  end.

(** [{...v}]: the own enumerable properties of [v] copied into a new
    object; nothing for [undefined], [null], booleans and numbers. *)
Definition spread (v : value) : obj :=
  match v with
  | VObj fs => fs
  | VArr l => index_from 0 l
  | VStr s => chars_from 0 s
  | _ => []
  end.

(** ** What the driver does to a value on its way to the store *)

(** The driver serialises with [ignoreUndefined] off: an [undefined] inside
    a document or an update is stored as [null]. *)
Fixpoint bson (v : value) : value :=
  match v with
  | VUndef => VNull
  | VArr l => VArr (map bson l)
  | VObj fs => VObj (map (fun kv => match kv with (k, x) => (k, bson x) end) fs)
  | _ => v
  end.

Definition bson_fields (fs : obj) : obj :=
  map (fun kv => match kv with (k, x) => (k, bson x) end) fs.

(** [new ObjectId(id)] on a string: the 24 hexadecimal digits of an id, or
    a thrown error. *)
Definition is_hex (c : ascii) : bool :=
  let n := nat_of_ascii c in
  ((48 <=? n) && (n <=? 57) || (97 <=? n) && (n <=? 102)
   || (65 <=? n) && (n <=? 70))%nat.

Definition lower (c : ascii) : ascii :=
  let n := nat_of_ascii c in
  if ((65 <=? n) && (n <=? 90))%nat then ascii_of_nat (n + 32) else c.

Fixpoint string_forall (p : ascii -> bool) (s : string) : bool :=
  match s with
  | EmptyString => true
  | String c r => p c && string_forall p r
  end.

Fixpoint string_map (f : ascii -> ascii) (s : string) : string :=
  match s with
  | EmptyString => EmptyString
  | String c r => String (f c) (string_map f r)
  end.

Definition ObjectId_error : string :=
  "input must be a 24 character hex string, 12 byte Uint8Array, or an integer".

Definition ObjectId (id : string) : option string :=
  if (String.length id =? 24)%nat && string_forall is_hex id
  then Some (string_map lower id)
  else None.

(** ** The numbers the handlers compute with *)

(** [parseInt] and the arithmetic on its results yield doubles whose value
    is an integer, an infinity or [NaN].  The sign of a zero is not kept:
    nothing in the handlers tells [-0] from [0]. *)
Inductive number : Type :=
| Fin (z : Z)
| Inf (neg : bool)
| NaN.

Coercion Fin : Z >-> number.

(** The double nearest to an integer: the integer itself below [2^53];
    above, its 53 leading bits rounded to nearest, ties to even; an infinity
    when that reaches [2^1024]. *)
Definition round_double (z : Z) : number :=
  (let a := Z.abs z in
   if a <? 2 ^ 53 then Fin z
   else
     let sh := Z.log2 a - 52 in
     let q := a / 2 ^ sh in
     let r := a mod 2 ^ sh in
     let half := 2 ^ (sh - 1) in
     let q' := if r <? half then q
               else if half <? r then q + 1
               else if Z.even q then q else q + 1 in
     let m := q' * 2 ^ sh in
     if 2 ^ 1024 <=? m then Inf (z <? 0) else Fin (Z.sgn z * m))%Z.

(** [a - b] and [a * b] on such doubles: the exact result, rounded. *)
Definition js_sub (a b : number) : number :=
  match a, b with
  | Fin x, Fin y => round_double (x - y)
  | Inf s, Fin _ => Inf s
  | Fin _, Inf s => Inf (negb s)
  | Inf s, Inf t => if Bool.eqb s t then NaN else Inf s
  | _, _ => NaN
  end.

Definition js_mul (a b : number) : number :=
  match a, b with
  | Fin x, Fin y => round_double (x * y)
  | Inf s, Fin y | Fin y, Inf s =>
      if Z.eqb y 0 then NaN else Inf (xorb s (Z.ltb y 0))
  | Inf s, Inf t => Inf (xorb s t)
  | _, _ => NaN
  end.

(** The number as a value. *)
Definition num_value (n : number) : value :=
  match n with
  | Fin z => VNum z
  | Inf s => VInf s
  | NaN => VNaN
  end.

Definition number_eqb (a b : number) : bool :=
  match a, b with
  | Fin x, Fin y => Z.eqb x y
  | Inf s, Inf t => Bool.eqb s t
  | _, _ => false
  end.

(** ** Text helpers of the handlers *)

(** [s.split(c)] for a one-character separator. *)
Fixpoint split_on (c : ascii) (s : string) : list string :=
  match s with
  | EmptyString => [EmptyString]
  | String a r =>
      if Ascii.eqb a c then EmptyString :: split_on c r
      else match split_on c r with
           | [] => [String a EmptyString]
           | w :: ws => String a w :: ws
           end
  end.

(** The white space of one byte: space, tab, line feed, vertical tab, form
    feed and carriage return. *)
Definition is_space (c : ascii) : bool :=
  let n := nat_of_ascii c in
  ((n =? 32) || (9 <=? n) && (n <=? 13))%nat.

(** The white space of JavaScript beyond ASCII, in UTF-8: U+00A0 in two
    bytes; U+1680, U+2000 to U+200A, U+2028, U+2029, U+202F, U+205F, U+3000
    and U+FEFF in three. *)
Definition wide_space2 (a b : ascii) : bool :=
  ((nat_of_ascii a =? 194) && (nat_of_ascii b =? 160))%nat.

Definition wide_space3 (a b c : ascii) : bool :=
  let x := nat_of_ascii a in
  let y := nat_of_ascii b in
  let z := nat_of_ascii c in
  ((x =? 225) && (y =? 154) && (z =? 128)
   || (x =? 226) && (y =? 128)
      && ((128 <=? z) && (z <=? 138) || (z =? 168) || (z =? 169) || (z =? 175))
   || (x =? 226) && (y =? 129) && (z =? 159)
   || (x =? 227) && (y =? 128) && (z =? 128)
   || (x =? 239) && (y =? 187) && (z =? 191))%nat.

Fixpoint skip_spaces (s : string) : string :=
  match s with
  | String a r =>
      if is_space a then skip_spaces r
      else
        match r with
        | String b r2 =>
            if wide_space2 a b then skip_spaces r2
            else
              match r2 with
              | String c r3 => if wide_space3 a b c then skip_spaces r3 else s
              | EmptyString => s
              end
        | EmptyString => s
        end
  | EmptyString => s
  end.

Definition digit_val (radix : Z) (c : ascii) : option Z :=
  let n := Z.of_nat (nat_of_ascii c) in
  let d := (if (48 <=? n) && (n <=? 57) then n - 48
            else if (97 <=? n) && (n <=? 122) then n - 87
            else if (65 <=? n) && (n <=? 90) then n - 55
            else radix)%Z in
  if (d <? radix)%Z then Some d else None.

(** The longest prefix of digits, as a number; [None] when there is no
    digit. *)
Fixpoint parse_digits (radix : Z) (s : string) (acc : option Z) : option Z :=
  match s with
  | EmptyString => acc
  | String c r =>
      match digit_val radix c with
      | Some d =>
          parse_digits radix r
            (Some (radix * match acc with Some a => a | None => 0 end + d))
      | None => acc
      end
  end%Z.

(** [parseInt(s)] on a string: leading white space, a sign, a [0x] prefix
    for radix 16, then digits; [NaN] when there is no digit, and otherwise
    the double nearest to the integer the digits spell. *)
Definition parseInt_string (s : string) : number :=
  let s1 := skip_spaces s in
  let '(neg, s2) :=
    match s1 with
    | String "-" r => (true, r)
    | String "+" r => (false, r)
    | _ => (false, s1)
    end in
  let '(radix, s3) :=
    match s2 with
    | String "0" (String "x" r) => (16%Z, r)
    | String "0" (String "X" r) => (16%Z, r)
    | _ => (10%Z, s2)
    end in
  match parse_digits radix s3 None with
  | Some n => round_double (if neg then (- n)%Z else n)
  | None => NaN
  end.

(** How many decimal digits a positive integer has. *)
Fixpoint count_digits (fuel : nat) (a : Z) : Z :=
  match fuel with
  | O => 1
  | S f => if (a <? 10)%Z then 1%Z else (1 + count_digits f (a / 10))%Z
  end.

(** The first digit of the text of a double [a >= 10^21] with [k] digits.
    Such a number prints in exponent notation with the fewest digits that
    still read back as [a], the nearest such decimal being taken; [p] is
    the number of digits tried. *)
Fixpoint leading_digit (fuel : nat) (p a k : Z) : Z :=
  (match fuel with
   | O => a / 10 ^ (k - 1)
   | S f =>
       let unit := 10 ^ (k - p) in
       let q := a / unit in
       let r := a mod unit in
       let down := number_eqb (round_double (q * unit)) (Fin a) in
       let up := number_eqb (round_double ((q + 1) * unit)) (Fin a) in
       let first s := if s =? 10 ^ p then 1 else s / 10 ^ (p - 1) in
       if down && up then
         if 2 * r <? unit then first q
         else if unit <? 2 * r then first (q + 1)
         else if Z.even q then first q else first (q + 1)
       else if down then first q
       else if up then first (q + 1)
       else leading_digit f (p + 1) a k
   end)%Z.

(** [parseInt(n)] on a number: below [10^21] a number prints as its digits,
    from there on in exponent notation, of which [parseInt] reads the first
    digit. *)
Definition parseInt_number (n : Z) : number :=
  (let a := Z.abs n in
   if a <? 10 ^ 21 then round_double n
   else
     let k := count_digits (Z.to_nat (Z.log2 a)) a in
     Fin (Z.sgn n * leading_digit 17 1 a k))%Z.

(** [parseInt(v)]: the argument is first turned into a string.  An array
    prints as its elements joined by commas, so only its first element
    counts; an id prints as its hexadecimal text; [undefined], [null],
    booleans, infinities, [NaN], dates and objects print as text without a
    leading digit. *)
Fixpoint parseInt (v : value) : number :=
  match v with
  | VStr s => parseInt_string s
  | VNum n => parseInt_number n
  | VOid o => parseInt_string o
  | VArr (x :: _) => parseInt x
  | _ => NaN
  end.

(** [n || d] for the result of [parseInt]: [NaN] and [0] are falsy. *)
Definition or_default (n : number) (d : Z) : number :=
  match n with
  | Fin x => if Z.eqb x 0 then Fin d else n
  | Inf _ => n
  | NaN => Fin d
  end.

(** [v > 0] for a count returned by the driver. *)
Definition gt0 (v : value) : bool :=
  match v with
  | VNum n => Z.ltb 0 n
  | VInf neg => negb neg
  | _ => false
  end.

(** ** The document store *)

Inductive collection : Type := assignments | reviews | submittedAssignments.

Definition doc := obj.

Record database : Type := mkDB {
  db_assignments : list doc;
  db_reviews : list doc;
  db_submitted : list doc
}.

Definition docs (d : database) (c : collection) : list doc :=
  match c with
  | assignments => db_assignments d
  | reviews => db_reviews d
  | submittedAssignments => db_submitted d
  end.

Definition set_docs (d : database) (c : collection) (l : list doc) : database :=
  match c with
  | assignments => mkDB l (db_reviews d) (db_submitted d)
  | reviews => mkDB (db_assignments d) l (db_submitted d)
  | submittedAssignments => mkDB (db_assignments d) (db_reviews d) l
  end.

(** The calls of the driver that the handlers issue, with their arguments as
    the source writes them. [Find] carries the cursor's [sort], [skip] and
    [limit] ([[]], [0] and [0] when the source sets none); [skip] and
    [limit] are the numbers the handler computed, whatever they are. *)
Inductive dbcall : Type :=
| Find (c : collection) (filter : obj) (sort : obj) (skip limit : number)
| FindOne (c : collection) (filter : obj)
| InsertOne (c : collection) (d : value)
| UpdateOne (c : collection) (filter : obj) (update : obj)
| DeleteOne (c : collection) (filter : obj)
| Aggregate (c : collection) (pipeline : list value).
Arguments Find c filter sort (skip limit)%_Z.

Inductive result (A : Type) : Type :=
| Ok (a : A)
| Throw (msg : string).
Arguments Ok {A} a.
Arguments Throw {A} msg.

(** *** Queries *)

Definition regex_engine := string -> string -> string -> bool.

(** A field of a stored document as a query sees it: a missing field reads
    as [null]. *)
Definition doc_field (d : doc) (k : string) : value := bson (obj_get d k).

Definition has_operator (fs : obj) : bool :=
  existsb (fun kv => String.prefix "$" (fst kv)) fs.

(** The conditions the model understands: a plain value (equality), the
    operator documents [{$regex: p, $options: o}] with [p] a string and
    [{$ne: v}].  The store rejects the call for any other operator
    document.  A field is compared as a whole: matching the elements of a
    field that holds an array is outside the model. *)
Definition cond_supported (c : value) : bool :=
  match c with
  | VObj ops =>
      if has_operator ops then
        match ops with
        | [(k1, VStr _); (k2, VStr _)] =>
            String.eqb k1 "$regex" && String.eqb k2 "$options"
        | [(k1, _)] => String.eqb k1 "$ne"
        | _ => false
        end
      else true
  | _ => true
  end.

Definition cond_holds (re : regex_engine) (c : value) (f : value) : bool :=
  match c with
  | VObj ops =>
      if has_operator ops then
        match ops with
        | [(_, VStr p); (_, VStr o)] =>
            match f with VStr s => re p o s | _ => false end
        | [(_, v)] => negb (value_eqb (bson v) f)
        | _ => false
        end
      else value_eqb (bson c) f
  | _ => value_eqb (bson c) f
  end.

Definition filter_supported (filter : obj) : bool :=
  forallb (fun kv => cond_supported (snd kv)) filter.

Definition filter_holds (re : regex_engine) (filter : obj) (d : doc) : bool :=
  forallb (fun kv => cond_holds re (snd kv) (doc_field d (fst kv))) filter.

(** *** Order of BSON values, for [sort] *)

Definition bson_rank (v : value) : Z :=
  match v with
  | VUndef | VNull => 1
  | VNum _ | VInf _ | VNaN => 2
  | VStr _ => 3
  | VObj _ => 4
  | VArr _ => 5
  | VOid _ => 7
  | VBool _ => 8
  | VDate _ => 9
  end.

Definition comparison_leb (c : comparison) : bool :=
  match c with Gt => false | _ => true end.

(** Values of different types are ordered by type; numbers, dates, strings,
    ids and booleans by content ([NaN] below every number); two arrays or
    two objects are left in the order they come. *)
Definition bson_leb (a b : value) : bool :=
  match a, b with
  | VNum x, VNum y => Z.leb x y
  | VNaN, (VNum _ | VInf _ | VNaN) => true
  | (VNum _ | VInf _), VNaN => false
  | VInf s, VNum _ => s
  | VNum _, VInf s => negb s
  | VInf s, VInf t => implb t s
  | VDate x, VDate y => Z.leb x y
  | VStr x, VStr y => comparison_leb (String.compare x y)
  | VOid x, VOid y => comparison_leb (String.compare x y)
  | VBool x, VBool y => implb x y
  | _, _ => Z.leb (bson_rank a) (bson_rank b)
  end.

Fixpoint insert_by (le : doc -> doc -> bool) (x : doc) (l : list doc) : list doc :=
  match l with
  | [] => [x]
  | y :: r => if le x y then x :: l else y :: insert_by le x r
  end.

Definition sort_by (le : doc -> doc -> bool) (l : list doc) : list doc :=
  fold_right (insert_by le) [] l.

(** [sort({k: 1})] and [sort({k: -1})]; no sort for [{}]; other sort
    documents are rejected. *)
Definition sort_docs (spec : obj) (l : list doc) : option (list doc) :=
  match spec with
  | [] => Some l
  | [(k, VNum dir)] =>
      if Z.eqb dir 1 then
        Some (sort_by (fun x y => bson_leb (doc_field x k) (doc_field y k)) l)
      else if Z.eqb dir (-1) then
        Some (sort_by (fun x y => bson_leb (doc_field y k) (doc_field x k)) l)
      else None
  | _ => None
  end.

(** [limit(0)] is no limit.  A negative limit asks for its absolute value
    in a single batch, and the first batch of a cursor without a batch
    size holds at most 101 documents. *)
Definition limit_docs (limit : Z) (l : list doc) : list doc :=
  if Z.eqb limit 0 then l
  else if Z.ltb limit 0 then firstn (Z.to_nat (Z.min (- limit) 101)) l
  else firstn (Z.to_nat limit) l.

(** *** Aggregation: the stages [$group], [$sort], [$skip] and [$limit] *)

(** The field path ["$a.b"] as the list of its keys. *)
Definition field_path (p : string) : option (list string) :=
  match p with
  | String "$" r => Some (split_on "." r)
  | _ => None
  end.

Fixpoint path_get (v : value) (path : list string) : value :=
  match path with
  | [] => v
  | k :: r =>
      match v with
      | VObj fs => path_get (obj_get fs k) r
      | _ => VUndef
      end
  end.

Fixpoint group_add (gs : list (value * list doc)) (key : value) (d : doc)
  : list (value * list doc) :=
  match gs with
  | [] => [(key, [d])]
  | (k, ds) :: r =>
      if value_eqb k key then (k, ds ++ [d]) :: r
      else (k, ds) :: group_add r key d
  end.

Definition group_by (key : doc -> value) (l : list doc) : list (value * list doc) :=
  fold_left (fun gs d => group_add gs (key d) d) l [].

(** The accumulators [{$first: "$path"}] and [{$sum: n}]. *)
Definition accumulate (spec : value) (ds : list doc) : option value :=
  match spec with
  | VObj [(op, VStr p)] =>
      if String.eqb op "$first" then
        match field_path p, ds with
        | Some path, d :: _ => Some (bson (path_get (VObj d) path))
        | Some _, [] => Some VNull
        | None, _ => Some (VStr p)
        end
      else None
  | VObj [(op, VNum n)] =>
      if String.eqb op "$sum" then Some (VNum (n * Z.of_nat (length ds))) else None
  | _ => None
  end.

Fixpoint accumulate_all (accs : obj) (ds : list doc) : option obj :=
  match accs with
  | [] => Some []
  | (k, spec) :: r =>
      match accumulate spec ds, accumulate_all r ds with
      | Some v, Some out => Some ((k, v) :: out)
      | _, _ => None
      end
  end.

Fixpoint group_docs (accs : obj) (gs : list (value * list doc)) : option (list doc) :=
  match gs with
  | [] => Some []
  | (key, ds) :: r =>
      match accumulate_all accs ds, group_docs accs r with
      | Some out, Some rest => Some ((("_id", key) :: out) :: rest)
      | _, _ => None
      end
  end.

(** The stages [$skip] and [$limit] take a number that fits 64 bits. *)
Definition int64_bound : Z := 2 ^ 63.

Definition run_stage (st : value) (l : list doc) : option (list doc) :=
  match st with
  | VObj [(op, arg)] =>
      if String.eqb op "$group" then
        match arg with
        | VObj ((idk, VStr p) :: accs) =>
            match String.eqb idk "_id", field_path p with
            | true, Some path =>
                group_docs accs
                  (group_by (fun d => bson (path_get (VObj d) path)) l)
            | _, _ => None
            end
        | _ => None
        end
      else if String.eqb op "$sort" then
        match arg with
        | VObj ((k, dir) :: r) => sort_docs ((k, dir) :: r) l
        | _ => None
        end
      else if String.eqb op "$skip" then
        match arg with
        | VNum n =>
            if Z.ltb n 0 || Z.leb int64_bound n then None
            else Some (skipn (Z.to_nat n) l)
        | _ => None
        end
      else if String.eqb op "$limit" then
        match arg with
        | VNum n =>
            if Z.ltb 0 n && Z.ltb n int64_bound
            then Some (firstn (Z.to_nat n) l) else None
        | _ => None
        end
      else None
  | _ => None
  end.

Fixpoint run_pipeline (pipeline : list value) (l : list doc) : option (list doc) :=
  match pipeline with
  | [] => Some l
  | st :: r =>
      match run_stage st l with
      | Some l' => run_pipeline r l'
      | None => None
      end
  end.

(** *** Writes *)

Fixpoint find_first (p : doc -> bool) (l : list doc) : option doc :=
  match l with
  | [] => None
  | d :: r => if p d then Some d else find_first p r
  end.

Fixpoint update_first (p : doc -> bool) (f : doc -> doc) (l : list doc) : list doc :=
  match l with
  | [] => []
  | d :: r => if p d then f d :: r else d :: update_first p f r
  end.

Fixpoint remove_first (p : doc -> bool) (l : list doc) : list doc :=
  match l with
  | [] => []
  | d :: r => if p d then r else d :: remove_first p r
  end.

(** [$set]: every listed field is written, in order. *)
Definition apply_set (sets : obj) (d : doc) : doc :=
  fold_left (fun acc kv => obj_set acc (fst kv) (bson (snd kv))) sets d.

Definition doc_eqb (a b : doc) : bool := value_eqb (VObj a) (VObj b).

(** What [insertOne] stores for its argument: an object as it is, an array
    as the document of its indices; anything else is rejected, by the
    [TypeError] of the driver's [doc._id == null] on [undefined] and [null]
    and of its [doc._id = ...] on a primitive value. *)
Definition insert_error (v : value) : string :=
  match v with
  | VUndef | VNull => TypeError v "_id"
  | VBool b =>
      ("Cannot create property '_id' on boolean '"
       ++ (if b then "true" else "false") ++ "'")%string
  | VNum n =>
      ("Cannot create property '_id' on number '" ++ Z_to_string n ++ "'")%string
  | VInf neg =>
      ("Cannot create property '_id' on number '"
       ++ (if neg then "-Infinity" else "Infinity") ++ "'")%string
  | VNaN => "Cannot create property '_id' on number 'NaN'"
  | VStr t => ("Cannot create property '_id' on string '" ++ t ++ "'")%string
  | _ => "cannot insert a value that is not a document"
  end.

Definition to_document (v : value) : option obj :=
  match v with
  | VObj fs => Some fs
  | VArr l => Some (index_from 0 l)
  | _ => None
  end.

(** The id of a document to insert: its own [_id] unless that is missing or
    [null], in which case the driver generates one. *)
Definition insert_id (fresh : string) (fs : obj) : value :=
  match obj_get fs "_id" with
  | VUndef | VNull => VOid fresh
  | x => bson x
  end.

Definition has_id (id : value) (d : doc) : bool :=
  value_eqb id (doc_field d "_id").

(** The reference model of the store: the result of a call, or the message
    of the error it throws, and the database after it.  A [find] whose
    [skip] or [limit] is an infinity or [NaN] is taken to be rejected. *)
Definition db_exec (re : regex_engine) (fresh : string) (call : dbcall)
  (d : database) : result value * database :=
  match call with
  | Find c filter sort skip limit =>
      if negb (filter_supported filter) then (Throw "unknown operator", d)
      else
        match skip, limit with
        | Fin skip, Fin limit =>
            if Z.ltb skip 0 then (Throw "skip value must be non-negative", d)
            else
              match sort_docs sort
                      (List.filter (filter_holds re filter) (docs d c)) with
              | Some l =>
                  (Ok (VArr (map VObj
                         (limit_docs limit (skipn (Z.to_nat skip) l)))), d)
              | None => (Throw "bad sort specification", d)
              end
        | _, _ => (Throw "skip and limit must be finite numbers", d)
        end
  | FindOne c filter =>
      if negb (filter_supported filter) then (Throw "unknown operator", d)
      else
        match find_first (filter_holds re filter) (docs d c) with
        | Some x => (Ok (VObj x), d)
        | None => (Ok VNull, d)
        end
  | InsertOne c v =>
      match to_document v with
      | None => (Throw (insert_error v), d)
      | Some fs =>
          let id := insert_id fresh fs in
          if existsb (has_id id) (docs d c)
          then (Throw "E11000 duplicate key error", d)
          else
            (Ok (VObj [("acknowledged", VBool true); ("insertedId", id)]),
             set_docs d c
               (docs d c ++ [("_id", id) :: obj_remove (bson_fields fs) "_id"]))
      end
  | UpdateOne c filter update =>
      if negb (filter_supported filter) then (Throw "unknown operator", d)
      else
        match update with
        | [(op, VObj sets)] =>
            if String.eqb op "$set" then
              match find_first (filter_holds re filter) (docs d c) with
              | Some x =>
                  let modified := negb (doc_eqb (apply_set sets x) x) in
                  (Ok (VObj [("acknowledged", VBool true);
                             ("modifiedCount", VNum (if modified then 1 else 0));
                             ("upsertedId", VNull);
                             ("upsertedCount", VNum 0);
                             ("matchedCount", VNum 1)]),
                   set_docs d c
                     (update_first (filter_holds re filter) (apply_set sets)
                        (docs d c)))
              | None =>
                  (Ok (VObj [("acknowledged", VBool true);
                             ("modifiedCount", VNum 0);
                             ("upsertedId", VNull);
                             ("upsertedCount", VNum 0);
                             ("matchedCount", VNum 0)]), d)
              end
            else (Throw "unknown update operator", d)
        | _ => (Throw "unknown update operator", d)
        end
  | DeleteOne c filter =>
      if negb (filter_supported filter) then (Throw "unknown operator", d)
      else
        match find_first (filter_holds re filter) (docs d c) with
        | Some _ =>
            (Ok (VObj [("acknowledged", VBool true); ("deletedCount", VNum 1)]),
             set_docs d c (remove_first (filter_holds re filter) (docs d c)))
        | None =>
            (Ok (VObj [("acknowledged", VBool true); ("deletedCount", VNum 0)]), d)
        end
  | Aggregate c pipeline =>
      match run_pipeline pipeline (docs d c) with
      | Some l => (Ok (VArr (map VObj l)), d)
      | None => (Throw "unsupported aggregation stage", d)
      end
  end.

(** ** Requests, responses and the handler monad *)

(** What is outside the server and fixed while one request is handled. *)
Record env : Type := mkEnv {
  (** [admin.auth().verifyIdToken]: the decoded token, or [None] when the
      verifier rejects *)
  verifyIdToken : string -> option value;
  (** [new Date()] *)
  now : Z;
  (** the [ObjectId] the driver generates for an inserted document *)
  new_oid : string;
  (** the [n]-th database call of the request (from 0) fails with this
      message: network and server errors *)
  db_fault : nat -> option string;
  regex_test : regex_engine
}.

Record request : Type := mkReq {
  req_authorization : option string;   (* req.headers.authorization *)
  req_id : string;                     (* req.params.id *)
  req_query : obj;                     (* req.query *)
  req_body : value                     (* req.body *)
}.

Record response : Type := mkRes {
  res_status : Z;
  res_body : value
}.

Record state : Type := mkState {
  db : database;
  calls : list dbcall;     (* the database calls issued so far *)
  sent : list response     (* the responses written so far *)
}.

(** A handler step: it may read the environment, change the state, and
    either returns or throws. *)
Definition M (A : Type) : Type := env -> state -> result A * state.

Definition ret {A : Type} (a : A) : M A := fun _ s => (Ok a, s).

Definition bind {A B : Type} (m : M A) (k : A -> M B) : M B :=
  fun e s =>
    match m e s with
    | (Ok a, s') => k a e s'
    | (Throw msg, s') => (Throw msg, s')
    end.

Definition throw {A : Type} (msg : string) : M A := fun _ s => (Throw msg, s).

(** [try { m } catch (error) { h(error.message) }] *)
Definition try_catch {A : Type} (m : M A) (h : string -> M A) : M A :=
  fun e s =>
    match m e s with
    | (Ok a, s') => (Ok a, s')
    | (Throw msg, s') => h msg e s'
    end.

Declare Scope handler_scope.
Delimit Scope handler_scope with handler.
Notation "x <- m ;; k" := (bind m (fun x => k))
  (at level 61, m at next level, right associativity) : handler_scope.
Notation "m ;; k" := (bind m (fun _ => k))
  (at level 61, right associativity) : handler_scope.
Open Scope handler_scope.

(** [await collection.op(...)]: the call is logged, then it either fails
    (a fault of the environment or an error of the store) or returns the
    store's result. *)
Definition db_call (c : dbcall) : M value :=
  fun e s =>
    let logged := mkState (db s) (calls s ++ [c]) (sent s) in
    match db_fault e (length (calls s)) with
    | Some msg => (Throw msg, logged)
    | None =>
        match db_exec (regex_test e) (new_oid e) c (db s) with
        | (Ok v, d') => (Ok v, mkState d' (calls s ++ [c]) (sent s))
        | (Throw msg, _) => (Throw msg, logged)
        end
    end.

(** [res.status(code).send(body)] and [res.status(code).json(body)]; the
    body is the value handed to Express. *)
Definition res_send (code : Z) (b : value) : M unit :=
  fun _ s => (Ok tt, mkState (db s) (calls s) (sent s ++ [mkRes code b])).

Definition new_Date : M value := fun e s => (Ok (VDate (now e)), s).

(** [v.k], which throws on [undefined] and [null]. *)
Definition prop (v : value) (k : string) : M value :=
  match get_prop v k with
  | Some x => ret x
  | None => throw (TypeError v k)
  end.

(** [const { k, ... } = v], where [src] is the text of the expression [v]:
    the pattern throws on [undefined] and [null], naming its first
    property. *)
Definition DestructureError (v : value) (src k : string) : string :=
  ("Cannot destructure property '" ++ k ++ "' of '" ++ src ++ "' as it is "
   ++ nullish_name v ++ ".")%string.

Definition destructure (v : value) (src k : string) : M value :=
  match get_prop v k with
  | Some x => ret x
  | None => throw (DestructureError v src k)
  end.

Definition new_ObjectId (id : string) : M value :=
  match ObjectId id with
  | Some o => ret (VOid o)
  | None => throw ObjectId_error
  end.

Definition failure (msg : string) : value :=
  VObj [("success", VBool false); ("message", VStr msg)].

(** The [catch] block every guarded handler ends with. *)
Definition send_500 (msg : string) : M unit := res_send 500 (failure msg).

(** ** The middleware [verifyToken] *)

Definition verifyToken (req : request) (next : M unit) : M unit :=
  match req_authorization req with
  | None => res_send 401 (failure "Unauthorized")
  | Some authHeader =>
      if String.eqb authHeader "" || negb (String.prefix "Bearer " authHeader)
      then res_send 401 (failure "Unauthorized")
      else
        fun e s =>
          match nth_error (split_on " " authHeader) 1 with
          | Some token =>
              match verifyIdToken e token with
              | Some _decoded => next e s
              | None => res_send 403 (failure "Forbidden") e s
              end
          | None => res_send 403 (failure "Forbidden") e s
          end
  end.

(** ** The handlers *)

Definition get_root (req : request) : M unit :=
  res_send 200 (VStr "Server is running").

Definition post_reviews (req : request) : M unit :=
  try_catch
    (name <- destructure (req_body req) "req.body" "name" ;;
     image <- destructure (req_body req) "req.body" "image" ;;
     email <- destructure (req_body req) "req.body" "email" ;;
     text <- destructure (req_body req) "req.body" "text" ;;
     if negb (truthy name) || negb (truthy email) || negb (truthy text)
     then res_send 400 (VObj [("error", VStr "Missing fields")])
     else
       createdAt <- new_Date ;;
       result <- db_call (InsertOne reviews
                   (VObj [("name", name); ("image", image); ("email", email);
                          ("text", text); ("createdAt", createdAt)])) ;;
       insertedId <- prop result "insertedId" ;;
       res_send 201 (VObj [("success", VBool true);
                           ("message", VStr "Review added successfully");
                           ("insertedId", insertedId)]))
    send_500.

Definition get_reviews (req : request) : M unit :=
  let limit := or_default (parseInt (obj_get (req_query req) "limit")) 12 in
  let page := or_default (parseInt (obj_get (req_query req) "page")) 1 in
  let skip := js_mul (js_sub page 1%Z) limit in
  reviews <- db_call (Find reviews [] [("createdAt", VNum (-1))] skip limit) ;;
  res_send 200 reviews.

Definition post_assignments (req : request) : M unit :=
  let assignment := req_body req in
  try_catch
    (result <- db_call (InsertOne assignments assignment) ;;
     insertedId <- prop result "insertedId" ;;
     res_send 200 (VObj [("success", VBool true);
                         ("message", VStr "Assignment created successfully");
                         ("insertedId", insertedId)]))
    send_500.

(** The filter of [GET /assignments], built from the query. *)
Definition assignments_filter (query : obj) : obj :=
  let difficulty := obj_get query "difficulty" in
  let search := obj_get query "search" in
  let filter := [] in
  let filter :=
    if truthy difficulty then obj_set filter "difficulty" difficulty else filter in
  let filter :=
    if truthy search
    then obj_set filter "title" (VObj [("$regex", search); ("$options", VStr "i")])
    else filter in
  filter.

Definition get_assignments (req : request) : M unit :=
  let filter := assignments_filter (req_query req) in
  try_catch
    (result <- db_call (Find assignments filter [] 0 0) ;;
     res_send 200 result)
    send_500.

Definition not_found : value :=
  VObj [("success", VBool false); ("message", VStr "Assignment not found")].

Definition get_assignment (req : request) : M unit :=
  let id := req_id req in
  try_catch
    (oid <- new_ObjectId id ;;
     assignment <- db_call (FindOne assignments [("_id", oid)]) ;;
     if negb (truthy assignment) then res_send 404 not_found
     else res_send 200 assignment)
    send_500.

Definition leaderboard_pipeline (skip : number) (limit : Z) : list value :=
  [ VObj [("$group",
           VObj [("_id", VStr "$creator.email");
                 ("name", VObj [("$first", VStr "$creator.name")]);
                 ("assignmentCount", VObj [("$sum", VNum 1)])])];
    VObj [("$sort", VObj [("assignmentCount", VNum (-1))])];
    VObj [("$skip", num_value skip)];
    VObj [("$limit", VNum limit)] ].

Definition get_leaderboard (req : request) : M unit :=
  let page := or_default (parseInt (obj_get (req_query req) "page")) 1 in
  let limit := 10%Z in
  let skip := js_mul (js_sub page 1%Z) limit in
  leaderboard <- db_call (Aggregate assignments (leaderboard_pipeline skip limit)) ;;
  res_send 200 leaderboard.

Definition put_assignment (req : request) : M unit :=
  let id := req_id req in
  let updatedData := req_body req in
  try_catch
    (oid <- new_ObjectId id ;;
     title <- prop updatedData "title" ;;
     description <- prop updatedData "description" ;;
     marks <- prop updatedData "marks" ;;
     thumbnail <- prop updatedData "thumbnail" ;;
     difficulty <- prop updatedData "difficulty" ;;
     dueDate <- prop updatedData "dueDate" ;;
     result <- db_call (UpdateOne assignments [("_id", oid)]
                 [("$set", VObj [("title", title);
                                 ("description", description);
                                 ("marks", marks);
                                 ("thumbnail", thumbnail);
                                 ("difficulty", difficulty);
                                 ("dueDate", dueDate)])]) ;;
     modifiedCount <- prop result "modifiedCount" ;;
     if gt0 modifiedCount
     then res_send 200 (VObj [("success", VBool true);
                              ("message", VStr "Assignment updated successfully")])
     else res_send 400 (failure "Nothing was updated"))
    send_500.

Definition delete_assignment (req : request) : M unit :=
  let id := req_id req in
  let email := obj_get (req_query req) "email" in
  try_catch
    (oid <- new_ObjectId id ;;
     assignment <- db_call (FindOne assignments [("_id", oid)]) ;;
     if negb (truthy assignment) then res_send 404 not_found
     else
       creator <- prop assignment "creator" ;;
       if negb (strict_eq (get_prop_opt creator "email") email)
       then res_send 403
              (failure "You are not authorized to delete this assignment.")
       else
         oid' <- new_ObjectId id ;;
         result <- db_call (DeleteOne assignments [("_id", oid')]) ;;
         deletedCount <- prop result "deletedCount" ;;
         if gt0 deletedCount
         then res_send 200 (VObj [("success", VBool true)])
         else res_send 500 (failure "Delete failed internally."))
    send_500.

Definition get_submitted (req : request) : M unit :=
  let email := obj_get (req_query req) "email" in
  if negb (truthy email)
  then res_send 400 (VObj [("message", VStr "Email is required")])
  else
    try_catch
      (submissions <- db_call (Find submittedAssignments
                        [("userEmail", email)] [] 0 0) ;;
       res_send 200 submissions)
      send_500.

Definition post_submitted (req : request) : M unit :=
  let data := req_body req in
  try_catch
    (submittedAt <- new_Date ;;
     result <- db_call (InsertOne submittedAssignments
                 (VObj (obj_set (obj_set (spread data) "status" (VStr "pending"))
                          "submittedAt" submittedAt))) ;;
     insertedId <- prop result "insertedId" ;;
     res_send 200 (VObj [("success", VBool true); ("insertedId", insertedId)]))
    send_500.

Definition patch_submitted (req : request) : M unit :=
  let id := req_id req in
  obtainedMarks <- destructure (req_body req) "req.body" "obtainedMarks" ;;
  feedback <- destructure (req_body req) "req.body" "feedback" ;;
  try_catch
    (oid <- new_ObjectId id ;;
     markedAt <- new_Date ;;
     result <- db_call (UpdateOne submittedAssignments [("_id", oid)]
                 [("$set", VObj [("obtainedMarks", obtainedMarks);
                                 ("feedback", feedback);
                                 ("status", VStr "completed");
                                 ("markedAt", markedAt)])]) ;;
     modifiedCount <- prop result "modifiedCount" ;;
     res_send 200 (VObj [("success", VBool true);
                         ("modifiedCount", modifiedCount)]))
    send_500.

Definition get_pending_submitted (req : request) : M unit :=
  let email := obj_get (req_query req) "email" in
  if negb (truthy email)
  then res_send 400 (failure "Email is required")
  else
    try_catch
      (submissions <- db_call (Find submittedAssignments
                        [("status", VStr "pending");
                         ("userEmail", VObj [("$ne", email)])] [] 0 0) ;;
       res_send 200 submissions)
      send_500.

(** ** The route table *)

Inductive route : Type :=
| GetRoot
| PostReviews
| GetReviews
| PostAssignments
| GetAssignments
| GetAssignment
| GetLeaderboard
| PutAssignment
| DeleteAssignment
| GetSubmitted
| PostSubmitted
| PatchSubmitted
| GetPendingSubmitted.

Definition all_routes : list route :=
  [GetRoot; PostReviews; GetReviews; PostAssignments; GetAssignments;
   GetAssignment; GetLeaderboard; PutAssignment; DeleteAssignment;
   GetSubmitted; PostSubmitted; PatchSubmitted; GetPendingSubmitted].

Inductive verb : Type := GET | POST | PUT | PATCH | DELETE.

Definition route_verb (r : route) : verb :=
  match r with
  | GetRoot | GetReviews | GetAssignments | GetAssignment | GetLeaderboard
  | GetSubmitted | GetPendingSubmitted => GET
  | PostReviews | PostAssignments | PostSubmitted => POST
  | PutAssignment => PUT
  | PatchSubmitted => PATCH
  | DeleteAssignment => DELETE
  end.

Definition route_path (r : route) : string :=
  match r with
  | GetRoot => "/"
  | PostReviews | GetReviews => "/reviews"
  | PostAssignments | GetAssignments => "/assignments"
  | GetAssignment => "/assignment/:id"
  | GetLeaderboard => "/leaderboard"
  | PutAssignment | DeleteAssignment => "/assignments/:id"
  | GetSubmitted | PostSubmitted => "/submitted-assignments"
  | PatchSubmitted => "/submitted-assignments/:id"
  | GetPendingSubmitted => "/pending-submitted-assignments"
  end.

(** Whether the route is registered with [verifyToken] before its handler. *)
Definition uses_verifyToken (r : route) : bool :=
  match r with
  | PostAssignments | PutAssignment | DeleteAssignment
  | GetSubmitted | PostSubmitted | PatchSubmitted | GetPendingSubmitted => true
  | GetRoot | PostReviews | GetReviews | GetAssignments | GetAssignment
  | GetLeaderboard => false
  end.

Definition handler (r : route) : request -> M unit :=
  match r with
  | GetRoot => get_root
  | PostReviews => post_reviews
  | GetReviews => get_reviews
  | PostAssignments => post_assignments
  | GetAssignments => get_assignments
  | GetAssignment => get_assignment
  | GetLeaderboard => get_leaderboard
  | PutAssignment => put_assignment
  | DeleteAssignment => delete_assignment
  | GetSubmitted => get_submitted
  | PostSubmitted => post_submitted
  | PatchSubmitted => patch_submitted
  | GetPendingSubmitted => get_pending_submitted
  end.

(** A route as Express runs it: the middleware, then the handler. *)
Definition serve (r : route) (req : request) : M unit :=
  if uses_verifyToken r then verifyToken req (handler r req)
  else handler r req.

(** One request against a database: nothing has been called or sent yet. *)
Definition run (r : route) (req : request) (e : env) (d : database)
  : result unit * state :=
  serve r req e (mkState d [] []).

(** ** Vocabulary of the properties *)

(** The most database calls one request to a route can issue. *)
Definition max_calls (r : route) : nat :=
  match r with
  | GetRoot => 0
  | DeleteAssignment => 2
  | _ => 1
  end.

(** *** Authentication *)

(** The header is there and starts with ["Bearer "]. *)
Definition has_bearer (req : request) : bool :=
  match req_authorization req with
  | Some h => String.prefix "Bearer " h
  | None => false
  end.

(** [authHeader.split(" ")[1]] *)
Definition bearer_token (req : request) : option string :=
  match req_authorization req with
  | Some h => nth_error (split_on " " h) 1
  | None => None
  end.

(** The verifier accepts the token of the request. *)
Definition token_verified (e : env) (req : request) : bool :=
  match bearer_token req with
  | Some t => match verifyIdToken e t with Some _ => true | None => false end
  | None => false
  end.

(** *** Resources and the four operations *)



Inductive crud : Type := Create | Read | Update | Delete.

Definition call_crud (c : dbcall) : crud :=
  match c with
  | Find _ _ _ _ _ | FindOne _ _ | Aggregate _ _ => Read
  | InsertOne _ _ => Create
  | UpdateOne _ _ _ => Update
  | DeleteOne _ _ => Delete
  end.



(** The kinds of database call that occur in the handler of a route. *)
Definition route_ops (r : route) : list crud :=
  match r with
  | GetRoot => []
  | PostReviews | PostAssignments | PostSubmitted => [Create]
  | GetReviews | GetAssignments | GetAssignment | GetLeaderboard
  | GetSubmitted | GetPendingSubmitted => [Read]
  | PutAssignment | PatchSubmitted => [Update]
  | DeleteAssignment => [Read; Delete]
  end.


(** *** The filter of [GET /assignments], in words *)

Definition regex_cond (search : value) : value :=
  VObj [("$regex", search); ("$options", VStr "i")].

(** A condition per query parameter that is present. *)
Definition filter_when_present (query : obj) : obj :=
  (if obj_has query "difficulty"
   then [("difficulty", obj_get query "difficulty")] else [])
  ++ (if obj_has query "search"
      then [("title", regex_cond (obj_get query "search"))] else []).

(** A condition per query parameter that is truthy: present and not the
    empty string. *)
Definition filter_when_truthy (query : obj) : obj :=
  (if truthy (obj_get query "difficulty")
   then [("difficulty", obj_get query "difficulty")] else [])
  ++ (if truthy (obj_get query "search")
      then [("title", regex_cond (obj_get query "search"))] else []).

(** *** Reviews *)

(** Property [k] of the request body, [undefined] when there is none. *)
Definition body_field (req : request) (k : string) : value :=
  get_prop_opt (req_body req) k.

Definition nullish (v : value) : bool :=
  match v with
  | VUndef | VNull => true
  | _ => false
  end.

(** The body carries the property [k]. *)
Definition body_has (req : request) (k : string) : bool :=
  match req_body req with
  | VObj fs => obj_has fs k
  | _ => false
  end.

(** The review document that [POST /reviews] hands to [insertOne]. *)
Definition review_doc (req : request) (e : env) : obj :=
  [("name", body_field req "name"); ("image", body_field req "image");
   ("email", body_field req "email"); ("text", body_field req "text");
   ("createdAt", VDate (now e))].

(** *** Assignments *)

(** [assignment.creator?.email] of a stored document. *)
Definition creator_email (x : doc) : value :=
  get_prop_opt (obj_get x "creator") "email".


Definition assignment_fields : list string :=
  ["title"; "description"; "marks"; "thumbnail"; "difficulty"; "dueDate"].

Definition update_succeeded : response :=
  mkRes 200 (VObj [("success", VBool true);
                   ("message", VStr "Assignment updated successfully")]).

(** *** Submissions *)

Definition status_ok (x : doc) : bool :=
  match obj_get x "status" with
  | VStr s => String.eqb s "pending" || String.eqb s "completed"
  | _ => false
  end.

(** Every submission has the status ["pending"] or ["completed"]. *)
Definition status_invariant (d : database) : Prop :=
  forall x, In x (db_submitted d) -> status_ok x = true.

(** What a route writes into a submission it creates or modifies. *)
Definition written_by (r : route) (e : env) (x : doc) : Prop :=
  match r with
  | PostSubmitted =>
      obj_get x "status" = VStr "pending"
      /\ obj_get x "submittedAt" = VDate (now e)
  | PatchSubmitted =>
      obj_get x "status" = VStr "completed"
      /\ obj_get x "markedAt" = VDate (now e)
  | _ => False
  end.

Definition call_collection (c : dbcall) : collection :=
  match c with
  | Find c _ _ _ _ | FindOne c _ | InsertOne c _ | UpdateOne c _ _
  | DeleteOne c _ | Aggregate c _ => c
  end.

(** *** Sample inputs *)

Definition sample_oid : string := "0123456789abcdef01234567".

Definition sample_assignment : doc :=
  [("_id", VOid sample_oid); ("title", VStr "Graphs");
   ("difficulty", VStr "easy");
   ("creator", VObj [("email", VStr "ann@example.org"); ("name", VStr "Ann")])].

Definition sample_submission : doc :=
  [("_id", VOid sample_oid); ("userEmail", VStr "bob@example.org");
   ("status", VStr "pending")].

Definition sample_db : database := mkDB [sample_assignment] [] [sample_submission].

(** The verifier accepts the token ["good"]; the store has no fault; the
    regular-expression test is text equality. *)
Definition sample_env : env :=
  mkEnv (fun t => if String.eqb t "good" then Some (VObj []) else None)
    1000 "aaaaaaaaaaaaaaaaaaaaaaaa" (fun _ => None)
    (fun p _ s => String.eqb p s).

(** The same, with a store that fails every call. *)
Definition env_down : env :=
  mkEnv (verifyIdToken sample_env) 1000 "aaaaaaaaaaaaaaaaaaaaaaaa"
    (fun _ => Some "connection lost") (regex_test sample_env).

Definition anonymous (id : string) (query : obj) (b : value) : request :=
  mkReq None id query b.

Definition signed_in (id : string) (query : obj) (b : value) : request :=
  mkReq (Some "Bearer good") id query b.

(** A signed-in request that every route accepts. *)
Definition full_request : request :=
  signed_in sample_oid [("email", VStr "ann@example.org")]
    (VObj [("name", VStr "Ann"); ("email", VStr "ann@example.org");
           ("text", VStr "Nice"); ("title", VStr "Trees")]).

(** ** Vocabulary of the further properties *)

(** The collection the handler of a route works on. *)
Definition route_collection (r : route) : option collection :=
  match r with
  | GetRoot => None
  | PostReviews | GetReviews => Some reviews
  | PostAssignments | GetAssignments | GetAssignment | GetLeaderboard
  | PutAssignment | DeleteAssignment => Some assignments
  | GetSubmitted | PostSubmitted | PatchSubmitted
  | GetPendingSubmitted => Some submittedAssignments
  end.

(** The database after a request. *)
Definition db_after (r : route) (req : request) (e : env) (d : database)
  : database :=
  db (snd (run r req e d)).

(** The responses to a request. *)
Definition responses (r : route) (req : request) (e : env) (d : database)
  : list response :=
  sent (snd (run r req e d)).

(** The text has no space in it. *)
Definition no_space (t : string) : bool :=
  string_forall (fun c => negb (Ascii.eqb c " ")) t.

(** The answer of [POST /assignments] to a successful insertion. *)
Definition assignment_created (id : value) : response :=
  mkRes 200 (VObj [("success", VBool true);
                   ("message", VStr "Assignment created successfully");
                   ("insertedId", id)]).

(** No document of the list has the id [oid]. *)
Definition id_unused (oid : string) (l : list doc) : Prop :=
  forall y, In y l -> doc_field y "_id" <> VOid oid.

(** The document [insertOne] stores for an object without [_id]. *)
Definition stored_doc (oid : string) (fs : obj) : doc :=
  ("_id", VOid oid) :: bson_fields fs.

Definition deleted : response := mkRes 200 (VObj [("success", VBool true)]).

(** The fields that [PUT /assignments/:id] sets. *)
Definition put_fields (req : request) : obj :=
  [("title", body_field req "title");
   ("description", body_field req "description");
   ("marks", body_field req "marks");
   ("thumbnail", body_field req "thumbnail");
   ("difficulty", body_field req "difficulty");
   ("dueDate", body_field req "dueDate")].

Definition nothing_updated : response :=
  mkRes 400 (failure "Nothing was updated").

(** The fields that [PATCH /submitted-assignments/:id] sets. *)
Definition patch_fields (req : request) (e : env) : obj :=
  [("obtainedMarks", body_field req "obtainedMarks");
   ("feedback", body_field req "feedback");
   ("status", VStr "completed");
   ("markedAt", VDate (now e))].

Definition marked (n : Z) : response :=
  mkRes 200 (VObj [("success", VBool true); ("modifiedCount", VNum n)]).


(** The filter of [GET /submitted-assignments]. *)
Definition own_filter (email : value) : obj := [("userEmail", email)].

(** The filter of [GET /pending-submitted-assignments]. *)
Definition pending_filter (email : value) : obj :=
  [("status", VStr "pending"); ("userEmail", VObj [("$ne", email)])].

(** [limit], [page] and [skip] of [GET /reviews]. *)
Definition reviews_limit (query : obj) : number :=
  or_default (parseInt (obj_get query "limit")) 12.

Definition reviews_page (query : obj) : number :=
  or_default (parseInt (obj_get query "page")) 1.

Definition reviews_skip (query : obj) : number :=
  js_mul (js_sub (reviews_page query) 1%Z) (reviews_limit query).

Definition newest_first : obj := [("createdAt", VNum (-1))].

(** [page] and [skip] of [GET /leaderboard]. *)
Definition leaderboard_page (query : obj) : number :=
  or_default (parseInt (obj_get query "page")) 1.

Definition leaderboard_skip (query : obj) : number :=
  js_mul (js_sub (leaderboard_page query) 1%Z) 10%Z.

(** The accumulators of the leaderboard's [$group] stage. *)
Definition leaderboard_accs : obj :=
  [("name", VObj [("$first", VStr "$creator.name")]);
   ("assignmentCount", VObj [("$sum", VNum 1)])].

(** The value an assignment is grouped by: its [creator.email]. *)
Definition creator_key (x : doc) : value :=
  bson (path_get (VObj x) ["creator"; "email"]).

(** The [creator.name] of the first assignment of a group. *)
Definition first_name (ds : list doc) : value :=
  match ds with
  | x :: _ => bson (path_get (VObj x) ["creator"; "name"])
  | [] => VNull
  end.

(** A line of the leaderboard. *)
Definition leaderboard_entry (key name : value) (n : Z) : doc :=
  [("_id", key); ("name", name); ("assignmentCount", VNum n)].

Definition group_entry (g : value * list doc) : doc :=
  leaderboard_entry (fst g) (first_name (snd g))
    (1 * Z.of_nat (length (snd g))).

(** The number of documents in all the groups. *)
Fixpoint group_sizes (gs : list (value * list doc)) : nat :=
  match gs with
  | [] => 0
  | g :: r => length (snd g) + group_sizes r
  end.

(** The object [POST /submitted-assignments] hands to [insertOne]. *)
Definition submission_doc (fs : obj) (e : env) : obj :=
  obj_set (obj_set fs "status" (VStr "pending")) "submittedAt" (VDate (now e)).

(** The review as [POST /reviews] stores it. *)
Definition stored_review (req : request) (e : env) : doc :=
  stored_doc (new_oid e) (review_doc req e).

(** * Properties *)

(** ** Symbolic execution of a handler *)

Ltac run_unfold :=
  unfold run, serve, handler, uses_verifyToken, verifyToken,
    get_root, post_reviews, get_reviews, post_assignments, get_assignments,
    get_assignment, get_leaderboard, put_assignment, delete_assignment,
    get_submitted, post_submitted, patch_submitted, get_pending_submitted,
    send_500, prop, destructure, new_ObjectId, new_Date, res_send, db_call,
    try_catch, bind, ret, throw.

Ltac run_simpl := cbn [fst snd db calls sent app length] in *.

(** Case analysis on the innermost test the execution is stuck on. *)
Ltac run_step :=
  match goal with
  | |- context [match ?x with _ => _ end] =>
      lazymatch x with
      | context [match _ with _ => _ end] => fail
      | _ => destruct x eqn:?
      end
  end; run_simpl.

Ltac run_cases := run_unfold; run_simpl; repeat run_step.

(** ** Text lemmas *)

Lemma split_on_nonempty c s : split_on c s <> [].
Proof.
  destruct s as [|a r]; cbn; [discriminate|].
  destruct (Ascii.eqb a c); [discriminate|].
  destruct (split_on c r); discriminate.
Qed.

Lemma prefix_app p : forall h,
  String.prefix p h = true -> exists r, h = (p ++ r)%string.
Proof.
  induction p as [|a p IH]; intros h H.
  - exists h. reflexivity.
  - destruct h as [|b h]; simpl in H; [discriminate H|].
    destruct (ascii_dec a b) as [->|]; [|discriminate H].
    destruct (IH h H) as [r ->]. exists r. reflexivity.
Qed.

(** A header that starts with ["Bearer "] has a second word. *)
Lemma bearer_has_token h :
  String.prefix "Bearer " h = true ->
  exists t, nth_error (split_on " " h) 1 = Some t.
Proof.
  intros H. destruct (prefix_app _ _ H) as [r ->].
  cbn. pose proof (split_on_nonempty " " r) as Hne.
  destruct (split_on " " r) as [|t ts]; [congruence|].
  exists t. reflexivity.
Qed.

Lemma bearer_not_empty h : String.prefix "Bearer " h = true -> String.eqb h "" = false.
Proof. intros H. destruct h; cbn in H; [discriminate H | reflexivity]. Qed.

(** ** The model on small inputs *)

Example split_bearer : split_on " " "Bearer abc def" = ["Bearer"; "abc"; "def"].
Proof. reflexivity. Qed.

Example parseInt_prefix : parseInt (VStr "  -12px") = Fin (-12).
Proof. reflexivity. Qed.

Example parseInt_hex : parseInt (VStr "0x1f") = Fin 31.
Proof. reflexivity. Qed.

Example parseInt_missing : or_default (parseInt VUndef) 12 = Fin 12.
Proof. reflexivity. Qed.

Example parseInt_zero : or_default (parseInt (VStr "0")) 12 = Fin 12.
Proof. reflexivity. Qed.

(** A no-break space (U+00A0, the bytes 194 and 160) before the digits is
    skipped. *)
Example parseInt_no_break_space :
  parseInt (VStr (String (ascii_of_nat 194) (String (ascii_of_nat 160) "5")))
  = Fin 5.
Proof. reflexivity. Qed.

(** [2^53 + 1] is not a double: the digits are read as [2^53]. *)
Example parseInt_rounds :
  parseInt (VStr "9007199254740993") = Fin 9007199254740992.
Proof. vm_compute. reflexivity. Qed.

(** The product of the leaderboard's [skip] is rounded too. *)
Example leaderboard_skip_rounds :
  leaderboard_skip [("page", VStr "9007199254740993")]
  = Fin 90071992547409904.
Proof. vm_compute. reflexivity. Qed.

(** Digits beyond the range of the doubles read as [Infinity], and the
    [skip] of the first page is then [0 * Infinity]. *)
Example reviews_skip_NaN :
  reviews_limit [("limit", VStr ("1" ++ string_of_list_ascii (repeat "0"%char 309)))]
  = Inf false
  /\ reviews_skip [("limit", VStr ("1" ++ string_of_list_ascii (repeat "0"%char 309)))]
     = NaN.
Proof. vm_compute. split; reflexivity. Qed.

Example ObjectId_upper :
  ObjectId "0123456789ABCDEF01234567" = Some sample_oid.
Proof. reflexivity. Qed.

Example ObjectId_short : ObjectId "42" = None.
Proof. reflexivity. Qed.

Example truthy_empty_string : truthy (VStr "") = false.
Proof. reflexivity. Qed.

Example spread_array :
  spread (VArr [VNum 7; VNum 8]) = [("0", VNum 7); ("1", VNum 8)].
Proof. reflexivity. Qed.

(** [GET /leaderboard] on the sample store: one creator with one
    assignment. *)
Example leaderboard_sample :
  sent (snd (run GetLeaderboard (anonymous "" [] VUndef) sample_env sample_db))
  = [mkRes 200 (VArr [VObj [("_id", VStr "ann@example.org");
                            ("name", VStr "Ann");
                            ("assignmentCount", VNum 1)]])].
Proof. reflexivity. Qed.

(** A malformed id is answered 500 by the [catch] block, before any call. *)
Example malformed_id :
  run GetAssignment (anonymous "42" [] VUndef) sample_env sample_db
  = (Ok tt, mkState sample_db [] [mkRes 500 (failure ObjectId_error)]).
Proof. reflexivity. Qed.

(** Without a body, the pattern of [PATCH /submitted-assignments/:id]
    throws before the [try], that of [POST /reviews] inside it, and [POST
    /assignments] hands [undefined] to [insertOne]. *)
Example patch_without_body :
  run PatchSubmitted (signed_in sample_oid [] VUndef) sample_env sample_db
  = (Throw "Cannot destructure property 'obtainedMarks' of 'req.body' as it is undefined.",
     mkState sample_db [] []).
Proof. reflexivity. Qed.

Example post_review_without_body :
  run PostReviews (anonymous "" [] VUndef) sample_env sample_db
  = (Ok tt,
     mkState sample_db []
       [mkRes 500
          (failure "Cannot destructure property 'name' of 'req.body' as it is undefined.")]).
Proof. reflexivity. Qed.

Example post_assignment_without_body :
  run PostAssignments (signed_in "" [] VUndef) sample_env sample_db
  = (Ok tt,
     mkState sample_db [InsertOne assignments VUndef]
       [mkRes 500 (failure "Cannot read properties of undefined (reading '_id')")]).
Proof. reflexivity. Qed.

(** The body's own [status] is overwritten on insertion. *)
Example submitted_status_overwritten :
  db_submitted
    (db (snd (run PostSubmitted
                (signed_in "" [] (VObj [("status", VStr "graded")]))
                sample_env sample_db)))
  = [sample_submission;
     [("_id", VOid "aaaaaaaaaaaaaaaaaaaaaaaa"); ("status", VStr "pending");
      ("submittedAt", VDate 1000)]].
Proof. reflexivity. Qed.

(** The owner deletes the sample assignment. *)
Example owner_deletes :
  run DeleteAssignment full_request sample_env sample_db
  = (Ok tt,
     mkState (mkDB [] [] [sample_submission])
       [FindOne assignments [("_id", VOid sample_oid)];
        DeleteOne assignments [("_id", VOid sample_oid)]]
       [mkRes 200 (VObj [("success", VBool true)])]).
Proof. reflexivity. Qed.

(** ** The route table *)

Lemma all_routes_complete r : In r all_routes.
Proof. destruct r; cbn; tauto. Qed.

Lemma all_routes_distinct : NoDup (map (fun r => (route_verb r, route_path r)) all_routes).
Proof.
  cbn. repeat (constructor; [cbn; intuition discriminate|]). constructor.
Qed.

(** A handler writes at most one response. *)
Lemma at_most_one_response r req e d :
  length (sent (snd (run r req e d))) <= 1.
Proof. destruct r; run_cases; lia. Qed.

(** ** C1: the number of database calls of a request *)

(** C1, counterexample.  A signed-in [DELETE /assignments/:id] by the
    creator of an existing assignment issues two database calls, [findOne]
    and then [deleteOne]; so it is not true that every request issues exactly
    one. *)
Lemma delete_issues_two_calls :
  calls (snd (run DeleteAssignment full_request sample_env sample_db))
  = [FindOne assignments [("_id", VOid sample_oid)];
     DeleteOne assignments [("_id", VOid sample_oid)]]
  /\ ~ (forall r req e d, length (calls (snd (run r req e d))) = 1).
Proof.
  split; [reflexivity|].
  intros H.
  specialize (H DeleteAssignment full_request sample_env sample_db).
  vm_compute in H. discriminate.
Qed.

(** C1, amended.  The kinds of the database calls of a request are an
    initial part of the calls the handler of its route lists ([route_ops]):
    nothing on [GET /], a [findOne] and then a [deleteOne] on [DELETE
    /assignments/:id], one call on every other route.  So a request issues at
    most [max_calls r] calls (0, 2 and 1), and some request issues that
    many. *)
Theorem calls_at_most_max (r : route) :
  (forall req e d,
     exists n,
       map call_crud (calls (snd (run r req e d))) = firstn n (route_ops r))
  /\ (forall req e d, length (calls (snd (run r req e d))) <= max_calls r)
  /\ (exists req e d, length (calls (snd (run r req e d))) = max_calls r).
Proof.
  split; [|split].
  - intros req e d. destruct r; cbn [route_ops]; run_cases;
      solve [exists 0; reflexivity | exists 1; reflexivity
            | exists 2; reflexivity].
  - intros req e d. destruct r; cbn [max_calls]; run_cases; lia.
  - exists full_request, sample_env, sample_db. destruct r; reflexivity.
Qed.

(** ** C2: which routes authenticate before they reach the store *)

(** The three outcomes of [verifyToken]. *)
Lemma verifyToken_outcome req next e s :
  (has_bearer req = false ->
   verifyToken req next e s = res_send 401 (failure "Unauthorized") e s)
  /\ (has_bearer req = true -> token_verified e req = false ->
      verifyToken req next e s = res_send 403 (failure "Forbidden") e s)
  /\ (has_bearer req = true -> token_verified e req = true ->
      verifyToken req next e s = next e s).
Proof.
  unfold has_bearer, token_verified, bearer_token, verifyToken.
  destruct (req_authorization req) as [h|].
  2: { repeat split; intros; try discriminate; reflexivity. }
  destruct (String.prefix "Bearer " h) eqn:Hp.
  - rewrite (bearer_not_empty h Hp). cbn [negb orb].
    destruct (bearer_has_token h Hp) as [t ->].
    destruct (verifyIdToken e t); repeat split; intros;
      try discriminate; reflexivity.
  - rewrite orb_true_r. repeat split; intros; try discriminate; reflexivity.
Qed.




(** ** C3: errors of the database *)

(** The routes whose database call sits inside [try ... catch]. *)
Lemma guarded_routes_answer_500 r req e d msg :
  r <> GetReviews -> r <> GetLeaderboard ->
  (forall n, db_fault e n = Some msg) ->
  calls (snd (run r req e d)) <> [] ->
  fst (run r req e d) = Ok tt
  /\ sent (snd (run r req e d)) = [mkRes 500 (failure msg)]
  /\ db (snd (run r req e d)) = d.
Proof.
  intros H1 H2 Hf Hc. revert Hc.
  destruct r; try congruence; run_cases;
    try rewrite Hf in *; try congruence; intros _;
    repeat match goal with H : Some _ = Some _ |- _ => inversion H; subst; clear H end;
    repeat split; reflexivity.
Qed.

Lemma get_prop_none v k : get_prop v k = None -> nullish v = true.
Proof. destruct v; cbn; intros H; try discriminate H; reflexivity. Qed.

(** On those routes no error of the database leaves the handler.  (The one
    error that can leave a guarded handler is not a database error: [PATCH
    /submitted-assignments/:id] reads the body before its [try], which
    throws when there is no body.) *)
Lemma guarded_routes_catch r req e d :
  r <> GetReviews -> r <> GetLeaderboard ->
  fst (run r req e d) = Ok tt
  \/ (r = PatchSubmitted /\ nullish (req_body req) = true
      /\ calls (snd (run r req e d)) = []).
Proof.
  intros H1 H2.
  destruct r; try congruence; run_cases; auto;
    right; repeat split;
    match goal with H : get_prop _ _ = None |- _ => exact (get_prop_none _ _ H) end.
Qed.

(** C3, the failing input.  [GET /reviews] and [GET /leaderboard] await
    their database call outside any [try]: when the call throws, the error
    leaves the handler and no response is written. *)
Theorem unguarded_read_error_escapes r req e d msg :
  r = GetReviews \/ r = GetLeaderboard ->
  db_fault e 0 = Some msg ->
  fst (run r req e d) = Throw msg
  /\ sent (snd (run r req e d)) = []
  /\ length (calls (snd (run r req e d))) = 1.
Proof.
  intros [-> | ->] Hf; run_unfold; run_simpl; rewrite Hf; repeat split.
Qed.

Lemma unguarded_read_error_escapes_witness :
  db_fault env_down 0 = Some "connection lost"
  /\ fst (run GetReviews (anonymous "" [] VUndef) env_down sample_db)
     = Throw "connection lost"
  /\ sent (snd (run GetReviews (anonymous "" [] VUndef) env_down sample_db)) = []
  /\ length (calls (snd (run GetReviews (anonymous "" [] VUndef) env_down sample_db))) = 1.
Proof.
  split; [reflexivity|].
  apply (unguarded_read_error_escapes GetReviews (anonymous "" [] VUndef)
           env_down sample_db "connection lost"); [left|]; reflexivity.
Defined.

(** ** C4: the operations each resource has *)








(** ** C5: the filter of [GET /assignments] *)

Lemma assignments_filter_truthy query :
  assignments_filter query = filter_when_truthy query.
Proof.
  unfold assignments_filter, filter_when_truthy.
  destruct (truthy (obj_get query "difficulty"));
    destruct (truthy (obj_get query "search")); reflexivity.
Qed.

Lemma filter_all {A : Type} (p : A -> bool) (l : list A) :
  (forall x, p x = true) -> List.filter p l = l.
Proof.
  intros H. induction l as [|x l IH]; cbn; [reflexivity|].
  rewrite H, IH. reflexivity.
Qed.

Lemma value_eqb_str s f : value_eqb (VStr s) f = true <-> f = VStr s.
Proof.
  destruct f; cbn; try (split; intros; discriminate).
  rewrite String.eqb_eq. split; intros H; [subst | inversion H]; reflexivity.
Qed.

(** A string condition on a field is equality with the field. *)
Lemma equality_cond_holds re k s x :
  filter_holds re [(k, VStr s)] x = true <-> doc_field x k = VStr s.
Proof.
  unfold filter_holds. cbn. rewrite andb_true_r. apply value_eqb_str.
Qed.

(** The regular-expression condition holds on the string fields that the
    engine matches with the option ["i"]. *)
Lemma regex_cond_holds re k p x :
  filter_holds re [(k, regex_cond (VStr p))] x = true
  <-> exists t, doc_field x k = VStr t /\ re p "i" t = true.
Proof.
  unfold filter_holds. cbn. rewrite andb_true_r.
  destruct (doc_field x k);
    (split; [intros H; try discriminate H
            | intros (u & Hu & H); try discriminate Hu]).
  - eauto.
  - inversion Hu; subst. exact H.
Qed.

(** C5, counterexample.  [GET /assignments?difficulty=] carries the
    parameter [difficulty] with the empty string as its value; the filter
    sent to the store has no condition on [difficulty] and the assignment of
    difficulty ["easy"] is returned. *)
Lemma empty_difficulty_is_ignored :
  obj_has [("difficulty", VStr "")] "difficulty" = true
  /\ filter_when_present [("difficulty", VStr "")] = [("difficulty", VStr "")]
  /\ run GetAssignments (anonymous "" [("difficulty", VStr "")] VUndef)
       sample_env sample_db
     = (Ok tt, mkState sample_db [Find assignments [] [] 0 0]
                 [mkRes 200 (VArr [VObj sample_assignment])]).
Proof. repeat split. Qed.

(** C5, amended.  The filter [GET /assignments] sends to the store has one
    condition per truthy query parameter (present and not the empty
    string): [difficulty] is compared with the parameter's value, which for
    a string is equality on the field, and [title] must match [search] as a
    regular expression with the option ["i"]; when neither is truthy the
    filter is empty and, the call succeeding, all assignments are
    returned. *)
Theorem get_assignments_filter req e d :
  calls (snd (run GetAssignments req e d))
  = [Find assignments (filter_when_truthy (req_query req)) [] 0 0]
  /\ (forall s x,
        filter_holds (regex_test e) [("difficulty", VStr s)] x = true
        <-> doc_field x "difficulty" = VStr s)
  /\ (forall p x,
        filter_holds (regex_test e) [("title", regex_cond (VStr p))] x = true
        <-> exists t, doc_field x "title" = VStr t /\ regex_test e p "i" t = true)
  /\ (db_fault e 0 = None ->
      filter_supported (filter_when_truthy (req_query req)) = true ->
      run GetAssignments req e d
      = (Ok tt, mkState d
                  [Find assignments (filter_when_truthy (req_query req)) [] 0 0]
                  [mkRes 200
                     (VArr (map VObj
                        (List.filter
                           (filter_holds (regex_test e)
                              (filter_when_truthy (req_query req)))
                           (db_assignments d))))]))
  /\ (truthy (obj_get (req_query req) "difficulty") = false ->
      truthy (obj_get (req_query req) "search") = false ->
      db_fault e 0 = None ->
      run GetAssignments req e d
      = (Ok tt, mkState d [Find assignments [] [] 0 0]
                  [mkRes 200 (VArr (map VObj (db_assignments d)))])).
Proof.
  assert (Hrun : db_fault e 0 = None ->
      filter_supported (filter_when_truthy (req_query req)) = true ->
      run GetAssignments req e d
      = (Ok tt, mkState d
                  [Find assignments (filter_when_truthy (req_query req)) [] 0 0]
                  [mkRes 200
                     (VArr (map VObj
                        (List.filter
                           (filter_holds (regex_test e)
                              (filter_when_truthy (req_query req)))
                           (db_assignments d))))])).
  { intros Hf Hs. run_unfold. rewrite assignments_filter_truthy. run_simpl.
    rewrite Hf. unfold db_exec. rewrite Hs. reflexivity. }
  split; [|split; [|split; [|split]]].
  - run_unfold. rewrite assignments_filter_truthy. run_simpl.
    repeat run_step; reflexivity.
  - intros s x. apply equality_cond_holds.
  - intros p x. apply regex_cond_holds.
  - exact Hrun.
  - intros Hd Hs Hf. revert Hrun. unfold filter_when_truthy.
    rewrite Hd, Hs. cbn [app]. intros Hrun. rewrite (Hrun Hf eq_refl).
    rewrite filter_all by reflexivity. reflexivity.
Qed.

Lemma get_assignments_filter_witness :
  run GetAssignments (anonymous "" [("search", VStr "Graphs")] VUndef)
    sample_env sample_db
  = (Ok tt, mkState sample_db
              [Find assignments [("title", regex_cond (VStr "Graphs"))] [] 0 0]
              [mkRes 200 (VArr [VObj sample_assignment])]).
Proof.
  apply (get_assignments_filter
           (anonymous "" [("search", VStr "Graphs")] VUndef)
           sample_env sample_db); reflexivity.
Defined.

(** ** C6: validation and insertion of a review *)

Lemma get_prop_not_nullish v k :
  nullish v = false -> get_prop v k = Some (get_prop_opt v k).
Proof. destruct v; cbn; intros H; try discriminate H; reflexivity. Qed.

Lemma obj_get_absent fs k : obj_has fs k = false -> obj_get fs k = VUndef.
Proof.
  induction fs as [|[k' v] fs IH]; cbn; [reflexivity|].
  destruct (String.eqb k k'); cbn; [discriminate | exact IH].
Qed.

(** A property the body does not carry reads as [undefined]. *)
Lemma body_field_missing req k :
  body_has req k = false -> body_field req k = VUndef.
Proof.
  unfold body_has, body_field, get_prop_opt, get_prop.
  destruct (req_body req); try reflexivity. apply obj_get_absent.
Qed.

(** C6, counterexample.  The body [{name: "", email: "ann@example.org",
    text: "Nice"}] carries all three properties, yet the route answers 400
    and inserts nothing: the empty name is falsy. *)
Lemma empty_name_is_rejected :
  let req := anonymous "" []
               (VObj [("name", VStr ""); ("email", VStr "ann@example.org");
                      ("text", VStr "Nice")]) in
  body_has req "name" = true /\ body_has req "email" = true
  /\ body_has req "text" = true
  /\ run PostReviews req sample_env sample_db
     = (Ok tt, mkState sample_db []
                 [mkRes 400 (VObj [("error", VStr "Missing fields")])]).
Proof. repeat split. Qed.

(** C6, amended.  For a [POST /reviews] request with a parsed body: when
    [name], [email] or [text] is missing or falsy (the empty string, [null],
    [0], [false]) the route answers 400, issues no database call and leaves
    the store as it was; when all three are truthy and the insertion
    succeeds, exactly one document with [name], [image], [email], [text] and
    [createdAt] is added to the reviews and the route answers 201 with the
    inserted id. *)
Theorem post_reviews_validation req e d :
  nullish (req_body req) = false ->
  (forall k, body_has req k = false -> truthy (body_field req k) = false)
  /\ (truthy (body_field req "name") && truthy (body_field req "email")
      && truthy (body_field req "text") = false ->
      run PostReviews req e d
      = (Ok tt, mkState d []
                  [mkRes 400 (VObj [("error", VStr "Missing fields")])]))
  /\ (truthy (body_field req "name") && truthy (body_field req "email")
      && truthy (body_field req "text") = true ->
      db_fault e 0 = None ->
      existsb (has_id (VOid (new_oid e))) (db_reviews d) = false ->
      run PostReviews req e d
      = (Ok tt,
         mkState
           (set_docs d reviews
              (db_reviews d
               ++ [("_id", VOid (new_oid e)) :: bson_fields (review_doc req e)]))
           [InsertOne reviews (VObj (review_doc req e))]
           [mkRes 201 (VObj [("success", VBool true);
                             ("message", VStr "Review added successfully");
                             ("insertedId", VOid (new_oid e))])])).
Proof.
  intros Hb. split; [|split].
  - intros k Hk. rewrite (body_field_missing req k Hk). reflexivity.
  - intros Hf. run_unfold. rewrite !(get_prop_not_nullish _ _ Hb).
    fold (body_field req "name") (body_field req "email")
      (body_field req "text").
    rewrite <- !negb_andb, Hf. reflexivity.
  - intros Ht Hf Hfresh. run_unfold. rewrite !(get_prop_not_nullish _ _ Hb).
    fold (body_field req "name") (body_field req "email")
      (body_field req "text") (body_field req "image").
    rewrite <- !negb_andb, Ht. cbn [negb]. run_simpl.
    rewrite Hf.
    unfold db_exec, to_document, insert_id. cbn [obj_get String.eqb Ascii.eqb Bool.eqb].
    cbn [docs]. rewrite Hfresh. reflexivity.
Qed.

Lemma post_reviews_validation_witness :
  let req := anonymous "" []
               (VObj [("name", VStr "Ann"); ("email", VStr "ann@example.org");
                      ("text", VStr "Nice")]) in
  run PostReviews req sample_env sample_db
  = (Ok tt,
     mkState
       (mkDB [sample_assignment]
          [[("_id", VOid "aaaaaaaaaaaaaaaaaaaaaaaa"); ("name", VStr "Ann");
            ("image", VNull); ("email", VStr "ann@example.org");
            ("text", VStr "Nice"); ("createdAt", VDate 1000)]]
          [sample_submission])
       [InsertOne reviews (VObj (review_doc req sample_env))]
       [mkRes 201 (VObj [("success", VBool true);
                         ("message", VStr "Review added successfully");
                         ("insertedId", VOid "aaaaaaaaaaaaaaaaaaaaaaaa")])]).
Proof.
  intros req.
  apply (post_reviews_validation req sample_env sample_db eq_refl);
    reflexivity.
Defined.

(** ** The store on the calls of the handlers *)

Lemma find_first_some p l x :
  find_first p l = Some x ->
  exists l1 l2,
    l = l1 ++ x :: l2 /\ p x = true
    /\ (forall y, In y l1 -> p y = false)
    /\ remove_first p l = l1 ++ l2
    /\ (forall f, update_first p f l = l1 ++ f x :: l2).
Proof.
  induction l as [|y l IH]; cbn; [discriminate|].
  destruct (p y) eqn:Hy.
  - intros H; inversion H; subst. exists [], l. cbn. repeat split; tauto.
  - intros H. destruct (IH H) as (l1 & l2 & -> & Hx & Hl1 & Hr & Hu).
    exists (y :: l1), l2. cbn. repeat split; auto.
    + intros z [<-|Hz]; auto.
    + rewrite Hr. reflexivity.
    + intros f. rewrite Hu. reflexivity.
Qed.

Lemma find_first_none p l :
  find_first p l = None <-> (forall y, In y l -> p y = false).
Proof.
  induction l as [|y l IH]; cbn; [tauto|].
  destruct (p y) eqn:Hy; split.
  - discriminate.
  - intros H. rewrite (H y) in Hy by auto. discriminate.
  - intros H z [<-|Hz]; [exact Hy | apply IH; assumption].
  - intros H. apply IH. auto.
Qed.

Lemma value_eqb_oid o f : value_eqb (VOid o) f = true <-> f = VOid o.
Proof.
  destruct f; cbn; try (split; intros; discriminate).
  rewrite String.eqb_eq. split; intros H; [subst | inversion H]; reflexivity.
Qed.

(** The filter [{_id: oid}] selects the documents whose [_id] is [oid]. *)
Lemma id_filter_holds re o x :
  filter_holds re [("_id", VOid o)] x = true <-> doc_field x "_id" = VOid o.
Proof.
  unfold filter_holds. cbn. rewrite andb_true_r. apply value_eqb_oid.
Qed.

Lemma id_filter_fails re o x :
  filter_holds re [("_id", VOid o)] x = false <-> doc_field x "_id" <> VOid o.
Proof.
  rewrite <- (id_filter_holds re).
  destruct (filter_holds re [("_id", VOid o)] x); intuition congruence.
Qed.


Lemma db_exec_FindOne re fresh c f d :
  filter_supported f = true ->
  db_exec re fresh (FindOne c f) d
  = (match find_first (filter_holds re f) (docs d c) with
     | Some x => Ok (VObj x)
     | None => Ok VNull
     end, d).
Proof.
  intros H. unfold db_exec. rewrite H. cbn [negb].
  destruct (find_first _ _); reflexivity.
Qed.

Lemma db_exec_DeleteOne re fresh c f d :
  filter_supported f = true ->
  db_exec re fresh (DeleteOne c f) d
  = match find_first (filter_holds re f) (docs d c) with
    | Some _ =>
        (Ok (VObj [("acknowledged", VBool true); ("deletedCount", VNum 1)]),
         set_docs d c (remove_first (filter_holds re f) (docs d c)))
    | None =>
        (Ok (VObj [("acknowledged", VBool true); ("deletedCount", VNum 0)]), d)
    end.
Proof. intros H. unfold db_exec. rewrite H. reflexivity. Qed.

(** ** C7: who may delete an assignment *)



(** ** C8: what an update of an assignment changes *)

Lemma obj_get_set_same fs k v : obj_get (obj_set fs k v) k = v.
Proof.
  induction fs as [|[k' w] fs IH]; cbn.
  - rewrite String.eqb_refl. reflexivity.
  - destruct (String.eqb k k') eqn:E; cbn; rewrite E; [reflexivity | exact IH].
Qed.

Lemma obj_get_set_other fs k k' v :
  k <> k' -> obj_get (obj_set fs k' v) k = obj_get fs k.
Proof.
  intros Hne. apply String.eqb_neq in Hne.
  induction fs as [|[k0 w] fs IH]; cbn.
  - rewrite Hne. reflexivity.
  - destruct (String.eqb k' k0) eqn:E; cbn.
    + apply String.eqb_eq in E. subst k0. rewrite Hne. reflexivity.
    + rewrite IH. reflexivity.
Qed.

Lemma get_prop_nullish v k : nullish v = true -> get_prop v k = None.
Proof. destruct v; cbn; intros H; try discriminate H; reflexivity. Qed.

Lemma db_exec_UpdateOne_set re fresh c f sets d :
  filter_supported f = true ->
  db_exec re fresh (UpdateOne c f [("$set", VObj sets)]) d
  = match find_first (filter_holds re f) (docs d c) with
    | Some x =>
        (Ok (VObj [("acknowledged", VBool true);
                   ("modifiedCount",
                    VNum (if negb (doc_eqb (apply_set sets x) x) then 1 else 0));
                   ("upsertedId", VNull);
                   ("upsertedCount", VNum 0);
                   ("matchedCount", VNum 1)]),
         set_docs d c (update_first (filter_holds re f) (apply_set sets) (docs d c)))
    | None =>
        (Ok (VObj [("acknowledged", VBool true);
                   ("modifiedCount", VNum 0);
                   ("upsertedId", VNull);
                   ("upsertedCount", VNum 0);
                   ("matchedCount", VNum 0)]), d)
    end.
Proof. intros H. unfold db_exec. rewrite H. reflexivity. Qed.

(** C8.  When [PUT /assignments/:id] answers that the assignment was
    updated, the assignments collection differs from the one before in one
    document only, the first whose [_id] is the id of the request; in that
    document each of [title], [description], [marks], [thumbnail],
    [difficulty] and [dueDate] holds the value of the request body (as the
    driver stores it: [null] when the body has none) and every other field
    is as before; the other collections are unchanged. *)
Theorem put_assignment_frame req e d :
  sent (snd (run PutAssignment req e d)) = [update_succeeded] ->
  exists oid l1 x x' l2,
    ObjectId (req_id req) = Some oid
    /\ db_assignments d = l1 ++ x :: l2
    /\ doc_field x "_id" = VOid oid
    /\ (forall y, In y l1 -> doc_field y "_id" <> VOid oid)
    /\ db_assignments (db (snd (run PutAssignment req e d))) = l1 ++ x' :: l2
    /\ (forall k, In k assignment_fields ->
                  obj_get x' k = bson (body_field req k))
    /\ (forall k, ~ In k assignment_fields -> obj_get x' k = obj_get x k)
    /\ db_reviews (db (snd (run PutAssignment req e d))) = db_reviews d
    /\ db_submitted (db (snd (run PutAssignment req e d))) = db_submitted d.
Proof.
  unfold run, serve. cbn [uses_verifyToken].
  destruct (verifyToken_outcome req (handler PutAssignment req) e
              (mkState d [] [])) as (H401 & H403 & Hok).
  destruct (has_bearer req);
    [|rewrite H401 by reflexivity; intros H; discriminate H].
  destruct (token_verified e req);
    [|rewrite H403 by reflexivity; intros H; discriminate H].
  rewrite Hok by reflexivity. clear H401 H403 Hok.
  cbn [handler]. unfold put_assignment, new_ObjectId.
  destruct (ObjectId (req_id req)) as [oid|] eqn:Hoid;
    [|intros H; discriminate H].
  run_unfold.
  destruct (nullish (req_body req)) eqn:Hb.
  { rewrite !(get_prop_nullish _ _ Hb). intros H; discriminate H. }
  rewrite !(get_prop_not_nullish _ _ Hb). run_simpl.
  destruct (db_fault e 0); [intros H; discriminate H|].
  rewrite db_exec_UpdateOne_set by reflexivity. cbn [docs].
  destruct (find_first _ (db_assignments d)) as [x|] eqn:Hfind;
    [|intros H; discriminate H].
  cbn [get_prop obj_get String.eqb Ascii.eqb Bool.eqb]. run_simpl.
  destruct (negb (doc_eqb _ x)); cbn [gt0 Z.ltb Z.compare]; run_simpl;
    [|intros H; discriminate H].
  intros _.
  destruct (find_first_some _ _ _ Hfind) as (l1 & l2 & Hl & Hx & Hl1 & _ & Hu).
  exists oid, l1, x. eexists. exists l2.
  split; [reflexivity|]. split; [exact Hl|].
  split; [apply id_filter_holds in Hx; exact Hx|].
  split; [intros y Hy; apply (id_filter_fails (regex_test e)); auto|].
  split; [cbn [set_docs db_assignments]; apply Hu|].
  unfold apply_set, body_field; cbn [fold_left fst snd].
  split; [|split; [|split; reflexivity]].
  - intros k Hk. cbn [assignment_fields In] in Hk.
    repeat destruct Hk as [<-|Hk]; try destruct Hk;
      repeat (rewrite obj_get_set_other by discriminate);
      apply obj_get_set_same.
  - intros k Hk. cbn [assignment_fields In] in Hk.
    repeat (rewrite obj_get_set_other by (intros ->; tauto)). reflexivity.
Qed.

Lemma put_assignment_frame_witness :
  exists oid l1 x x' l2,
    ObjectId (req_id full_request) = Some oid
    /\ db_assignments sample_db = l1 ++ x :: l2
    /\ doc_field x "_id" = VOid oid
    /\ (forall y, In y l1 -> doc_field y "_id" <> VOid oid)
    /\ db_assignments (db (snd (run PutAssignment full_request sample_env sample_db)))
       = l1 ++ x' :: l2
    /\ (forall k, In k assignment_fields ->
                  obj_get x' k = bson (body_field full_request k))
    /\ (forall k, ~ In k assignment_fields -> obj_get x' k = obj_get x k)
    /\ db_reviews (db (snd (run PutAssignment full_request sample_env sample_db)))
       = db_reviews sample_db
    /\ db_submitted (db (snd (run PutAssignment full_request sample_env sample_db)))
       = db_submitted sample_db.
Proof.
  apply (put_assignment_frame full_request sample_env sample_db).
  reflexivity.
Defined.

(** ** Which requests write a submission, and what *)

Lemma obj_get_remove_other fs k k' :
  k <> k' -> obj_get (obj_remove fs k') k = obj_get fs k.
Proof.
  intros Hne. apply String.eqb_neq in Hne.
  induction fs as [|[k0 w] fs IH]; cbn; [reflexivity|].
  destruct (String.eqb k' k0) eqn:E; cbn.
  - apply String.eqb_eq in E. subst k0. rewrite Hne. exact IH.
  - rewrite IH. reflexivity.
Qed.

(** The driver stores a string or a date as it is. *)
Lemma obj_get_bson_fields fs k v :
  obj_get fs k = v -> bson v = v -> v <> VUndef ->
  obj_get (bson_fields fs) k = v.
Proof.
  intros Hg Hb Hv. induction fs as [|[k0 w] fs IH]; cbn in *.
  - congruence.
  - destruct (String.eqb k k0); [congruence | auto].
Qed.

(** A read, and a call on another collection, leave the submissions as they
    are. *)
Lemma db_exec_keeps_submitted re fresh call d r d' :
  call_collection call <> submittedAssignments \/ call_crud call = Read ->
  db_exec re fresh call d = (r, d') ->
  db_submitted d' = db_submitted d.
Proof.
  intros Hc H.
  destruct call as [c f so sk li|c f|c v|c f u|c f|c p]; cbn in Hc, H;
    repeat match type of H with
           | context [match ?x with _ => _ end] => destruct x
           end;
    inversion H; subst; try reflexivity;
    destruct c; cbn; try reflexivity;
    destruct Hc as [Hc|Hc]; congruence.
Qed.

Lemma db_exec_InsertOne re fresh c fs d r d' :
  db_exec re fresh (InsertOne c (VObj fs)) d = (r, d') ->
  d' = d
  \/ d' = set_docs d c
            (docs d c
             ++ [("_id", insert_id fresh fs) :: obj_remove (bson_fields fs) "_id"]).
Proof.
  cbn. destruct (existsb _ _); intros H; inversion H; auto.
Qed.

Lemma db_exec_UpdateOne_effect re fresh c f sets d r d' :
  db_exec re fresh (UpdateOne c f [("$set", VObj sets)]) d = (r, d') ->
  d' = d
  \/ exists l1 x l2,
       docs d c = l1 ++ x :: l2
       /\ d' = set_docs d c (l1 ++ apply_set sets x :: l2).
Proof.
  cbn. destruct (negb (filter_supported f)); [intros H; inversion H; auto|].
  destruct (find_first _ _) as [x|] eqn:Hfind; intros H; inversion H; auto.
  right. destruct (find_first_some _ _ _ Hfind) as (l1 & l2 & Hl & _ & _ & _ & Hu).
  exists l1, x, l2. rewrite Hu. auto.
Qed.

Ltac keep_submitted :=
  repeat match goal with
         | H : db_exec _ _ _ _ = (_, _) |- _ =>
             apply db_exec_keeps_submitted in H;
             [|(left; discriminate) || (right; reflexivity)]
         end.

(** The routes other than the two that write submissions. *)
Lemma other_routes_keep_submitted r req e d :
  r <> PostSubmitted -> r <> PatchSubmitted ->
  db_submitted (db (snd (run r req e d))) = db_submitted d.
Proof.
  intros H1 H2.
  destruct r; try congruence; run_cases; keep_submitted; congruence.
Qed.

Lemma post_submitted_writes req e d x :
  In x (db_submitted (db (snd (run PostSubmitted req e d)))) ->
  In x (db_submitted d) \/ written_by PostSubmitted e x.
Proof.
  run_cases; auto;
    match goal with
    | H : db_exec _ _ _ _ = (_, _) |- _ =>
        apply db_exec_InsertOne in H; destruct H as [-> | ->]; auto
    end;
    cbn [set_docs db_submitted docs]; intros Hin;
    apply in_app_or in Hin; destruct Hin as [Hin|[<-|[]]]; auto;
    right; cbn [written_by obj_get String.eqb Ascii.eqb Bool.eqb];
    rewrite !obj_get_remove_other by discriminate; split.
  - apply obj_get_bson_fields; [|reflexivity|discriminate].
    rewrite obj_get_set_other by discriminate. apply obj_get_set_same.
  - apply obj_get_bson_fields; [|reflexivity|discriminate].
    apply obj_get_set_same.
  - apply obj_get_bson_fields; [|reflexivity|discriminate].
    rewrite obj_get_set_other by discriminate. apply obj_get_set_same.
  - apply obj_get_bson_fields; [|reflexivity|discriminate].
    apply obj_get_set_same.
Qed.

Lemma patch_submitted_writes req e d x :
  In x (db_submitted (db (snd (run PatchSubmitted req e d)))) ->
  In x (db_submitted d) \/ written_by PatchSubmitted e x.
Proof.
  run_cases; auto;
    match goal with
    | H : db_exec _ _ _ _ = (_, _) |- _ =>
        apply db_exec_UpdateOne_effect in H;
        destruct H as [-> | (l1 & x0 & l2 & Hl & ->)]; auto
    end;
    cbn [set_docs db_submitted docs] in *; rewrite Hl; intros Hin;
    apply in_app_or in Hin; destruct Hin as [Hin|[<-|Hin]];
    try (left; apply in_or_app; cbn [In]; tauto);
    right; unfold apply_set; cbn [written_by fold_left fst snd bson]; split;
    repeat (rewrite obj_get_set_other by discriminate); apply obj_get_set_same.
Qed.

Lemma written_status_ok r e x : written_by r e x -> status_ok x = true.
Proof.
  unfold status_ok.
  destruct r; cbn [written_by]; try tauto; intros [-> _]; reflexivity.
Qed.

(** * Further properties of the handlers *)

(** ** The store, call by call *)

Lemma db_exec_read_only re fresh call d r d' :
  call_crud call = Read ->
  db_exec re fresh call d = (r, d') -> d' = d.
Proof.
  intros Hc H.
  destruct call; cbn in Hc; try discriminate Hc; cbn in H;
    repeat match type of H with
           | context [match ?x with _ => _ end] => destruct x
           end;
    inversion H; reflexivity.
Qed.

Lemma docs_set_docs_other d c c' l :
  c <> c' -> docs (set_docs d c l) c' = docs d c'.
Proof. destruct c, c'; intros H; try congruence; reflexivity. Qed.

(** A call leaves the collections it does not name as they are. *)
Lemma db_exec_other_collection re fresh call d r d' c :
  call_collection call <> c ->
  db_exec re fresh call d = (r, d') -> docs d' c = docs d c.
Proof.
  intros Hc H.
  destruct call; cbn in Hc, H;
    repeat match type of H with
           | context [match ?x with _ => _ end] => destruct x
           end;
    inversion H; subst; try reflexivity;
    apply docs_set_docs_other; assumption.
Qed.

(** A request with a verified token reaches the handler of its route. *)
Lemma run_verified r req e d :
  has_bearer req = true -> token_verified e req = true ->
  run r req e d = handler r req e (mkState d [] []).
Proof.
  intros Hb Hv. unfold run, serve.
  destruct (uses_verifyToken r); [|reflexivity].
  apply verifyToken_outcome; assumption.
Qed.

Lemma route_eq_post_or_patch r :
  (r = PostSubmitted \/ r = PatchSubmitted)
  \/ (r <> PostSubmitted /\ r <> PatchSubmitted).
Proof. destruct r; auto; right; split; discriminate. Qed.

(** ** One response per request *)

(** X1.  A request either is handled to the end, and then exactly one
    response has been written, or an error leaves the handler, and then none
    has. *)
Theorem one_response_or_escape r req e d :
  (fst (run r req e d) = Ok tt /\ length (responses r req e d) = 1)
  \/ (exists msg, fst (run r req e d) = Throw msg /\ responses r req e d = []).
Proof.
  unfold responses.
  destruct r; run_cases;
    solve [left; split; reflexivity | right; eexists; split; reflexivity].
Qed.

(** ** Which requests can change which collection *)

Lemma get_run_keeps_db r req e d :
  route_verb r = GET -> db (snd (run r req e d)) = d.
Proof.
  intros Hv.
  destruct r; try discriminate Hv; run_cases;
    repeat match goal with
           | H : db_exec _ _ _ _ = (_, _) |- _ =>
               apply db_exec_read_only in H; [subst|reflexivity]
           end;
    reflexivity.
Qed.

Lemma run_keeps_other_collections r req e d c :
  route_collection r <> Some c ->
  docs (db (snd (run r req e d))) c = docs d c.
Proof.
  intros Hc.
  destruct r; cbn [route_collection] in Hc; run_cases;
    repeat match goal with
           | H : db_exec _ _ _ _ = (_, _) |- _ =>
               apply (db_exec_other_collection _ _ _ _ _ _ c) in H;
               [|cbn [call_collection]; congruence]
           end;
    congruence.
Qed.

(** X2.  A [GET] request leaves the database as it is, whatever the request
    and the environment. *)
Theorem get_routes_read_only r req e d :
  route_verb r = GET -> db_after r req e d = d.
Proof.
  unfold db_after. intros Hv.
  destruct r; try discriminate Hv; run_cases;
    repeat match goal with
           | H : db_exec _ _ _ _ = (_, _) |- _ =>
               apply db_exec_read_only in H; [subst|reflexivity]
           end;
    reflexivity.
Qed.

Lemma get_routes_read_only_witness :
  db_after GetLeaderboard (anonymous "" [("page", VStr "2")] VUndef)
    sample_env sample_db = sample_db.
Proof.
  apply (get_routes_read_only GetLeaderboard
           (anonymous "" [("page", VStr "2")] VUndef) sample_env sample_db).
  reflexivity.
Defined.

(** X3.  A request changes no collection other than the one its route works
    on: the routes of the reviews leave the assignments and the submissions
    as they are, and so on. *)
Theorem writes_stay_in_collection r req e d c :
  route_collection r <> Some c ->
  docs (db_after r req e d) c = docs d c.
Proof.
  unfold db_after. intros Hc.
  destruct r; cbn [route_collection] in Hc; run_cases;
    repeat match goal with
           | H : db_exec _ _ _ _ = (_, _) |- _ =>
               apply (db_exec_other_collection _ _ _ _ _ _ c) in H;
               [|cbn [call_collection]; congruence]
           end;
    congruence.
Qed.

Lemma writes_stay_in_collection_witness :
  docs (db_after PostReviews
          (anonymous "" []
             (VObj [("name", VStr "Ann"); ("email", VStr "ann@example.org");
                    ("text", VStr "Nice")]))
          sample_env sample_db) assignments
  = [sample_assignment].
Proof.
  apply (writes_stay_in_collection PostReviews
           (anonymous "" []
              (VObj [("name", VStr "Ann"); ("email", VStr "ann@example.org");
                     ("text", VStr "Nice")]))
           sample_env sample_db assignments).
  discriminate.
Defined.

Lemma post_reviews_appends req e d :
  exists l, db_reviews (db (snd (run PostReviews req e d))) = db_reviews d ++ l
            /\ length l <= 1.
Proof.
  run_cases;
    try (exists []; rewrite app_nil_r; split; [reflexivity|cbn; lia]);
    match goal with
    | H : db_exec _ _ _ _ = (_, _) |- _ =>
        apply db_exec_InsertOne in H; destruct H as [-> | ->]
    end;
    try (exists []; rewrite app_nil_r; split; [reflexivity|cbn; lia]);
    eexists; (split; [reflexivity|cbn; lia]).
Qed.

Lemma post_submitted_appends req e d :
  db_submitted (db (snd (run PostSubmitted req e d))) = db_submitted d
  \/ exists x, db_submitted (db (snd (run PostSubmitted req e d)))
               = db_submitted d ++ [x].
Proof.
  run_cases; auto;
    match goal with
    | H : db_exec _ _ _ _ = (_, _) |- _ =>
        apply db_exec_InsertOne in H; destruct H as [-> | ->]
    end; auto.
  all: right; eexists; reflexivity.
Qed.

Lemma patch_submitted_keeps_length req e d :
  length (db_submitted (db (snd (run PatchSubmitted req e d))))
  = length (db_submitted d).
Proof.
  run_cases; auto;
    match goal with
    | H : db_exec _ _ _ _ = (_, _) |- _ =>
        apply db_exec_UpdateOne_effect in H;
        destruct H as [-> | (la & xa & lb & Hdocs & ->)]
    end; auto;
    cbn [set_docs db_submitted docs] in *;
    rewrite Hdocs, !length_app; reflexivity.
Qed.

(** X4.  Nothing is ever removed from the reviews or the submissions, and a
    stored review is never modified: after a request the reviews are the
    reviews before, followed by at most one new one, and the submissions are
    as many as before or one more. *)
Theorem reviews_and_submissions_are_kept r req e d :
  (exists l, db_reviews (db_after r req e d) = db_reviews d ++ l
             /\ length l <= 1)
  /\ length (db_submitted d) <= length (db_submitted (db_after r req e d))
  /\ length (db_submitted (db_after r req e d)) <= S (length (db_submitted d)).
Proof.
  unfold db_after. split.
  - destruct (route_collection r) as [c|] eqn:Hc.
    + destruct c.
      * exists []. rewrite app_nil_r. split; [|cbn; lia].
        apply (run_keeps_other_collections r req e d reviews). congruence.
      * destruct r; try discriminate Hc.
        -- apply post_reviews_appends.
        -- exists []. rewrite app_nil_r. split; [|cbn; lia].
           rewrite get_run_keeps_db by reflexivity. reflexivity.
      * exists []. rewrite app_nil_r. split; [|cbn; lia].
        apply (run_keeps_other_collections r req e d reviews). congruence.
    + exists []. rewrite app_nil_r. split; [|cbn; lia].
      apply (run_keeps_other_collections r req e d reviews). congruence.
  - destruct (route_eq_post_or_patch r) as [[-> | ->] | [H1 H2]].
    + destruct (post_submitted_appends req e d) as [-> | [x ->]];
        [lia | rewrite length_app; cbn; lia].
    + rewrite patch_submitted_keeps_length. lia.
    + rewrite (other_routes_keep_submitted r req e d H1 H2). lia.
Qed.

(** ** The token that [verifyToken] hands to the verifier *)

Lemma split_on_word t :
  no_space t = true ->
  split_on " " t = [t]
  /\ forall rest, split_on " " (t ++ String " " rest) = t :: split_on " " rest.
Proof.
  unfold no_space. induction t as [|a t IH]; cbn.
  - intros _. split; reflexivity.
  - destruct (Ascii.eqb a " "); cbn; [discriminate|].
    intros H. destruct (IH H) as [H1 H2]. rewrite H1. split; [reflexivity|].
    intros rest. rewrite H2. reflexivity.
Qed.

(** X5.  The token is the text between the first and the second space of
    the header: for ["Bearer t"] and for ["Bearer t more"] alike the verifier
    is asked about [t] (the empty text for ["Bearer "]), and the request goes
    on to the handler exactly when the verifier accepts it; otherwise the
    answer is 403. *)
Theorem verifyToken_checks_first_word req t rest next e s :
  no_space t = true ->
  req_authorization req = Some ("Bearer " ++ t)%string
  \/ req_authorization req = Some ("Bearer " ++ t ++ " " ++ rest)%string ->
  verifyToken req next e s
  = match verifyIdToken e t with
    | Some _ => next e s
    | None => res_send 403 (failure "Forbidden") e s
    end.
Proof.
  intros Ht H. destruct (split_on_word t Ht) as [H1 H2].
  unfold verifyToken.
  assert (Hp : forall u, String.prefix "" u = true) by (intros [|]; reflexivity).
  destruct H as [-> | ->]; cbn; rewrite Hp; cbn [negb];
    [rewrite H1 | rewrite H2]; reflexivity.
Qed.

Lemma verifyToken_checks_first_word_witness :
  verifyToken (mkReq (Some "Bearer good extra") "" [] VUndef)
    (get_root (mkReq None "" [] VUndef)) sample_env (mkState sample_db [] [])
  = get_root (mkReq None "" [] VUndef) sample_env (mkState sample_db [] []).
Proof.
  apply (verifyToken_checks_first_word
           (mkReq (Some "Bearer good extra") "" [] VUndef) "good" "extra").
  - reflexivity.
  - right. reflexivity.
Defined.

(** ** Looking an assignment up *)

Lemma find_first_app p l1 x l2 :
  (forall y, In y l1 -> p y = false) -> p x = true ->
  find_first p (l1 ++ x :: l2) = Some x.
Proof.
  intros H1 Hx. induction l1 as [|y l1 IH]; cbn.
  - rewrite Hx. reflexivity.
  - rewrite (H1 y) by (left; reflexivity). apply IH.
    intros z Hz. apply H1. right. exact Hz.
Qed.

Lemma find_first_id re oid l1 x l2 :
  id_unused oid l1 -> doc_field x "_id" = VOid oid ->
  find_first (filter_holds re [("_id", VOid oid)]) (l1 ++ x :: l2) = Some x.
Proof.
  intros H1 Hx. apply find_first_app.
  - intros y Hy. apply id_filter_fails. apply H1. exact Hy.
  - apply id_filter_holds. exact Hx.
Qed.

Lemma find_first_id_unused re oid l :
  id_unused oid l ->
  find_first (filter_holds re [("_id", VOid oid)]) l = None.
Proof.
  intros H. apply find_first_none. intros y Hy. apply id_filter_fails.
  apply H. exact Hy.
Qed.

Lemma get_assignment_missing_at req e d oid :
  ObjectId (req_id req) = Some oid -> db_fault e 0 = None ->
  id_unused oid (db_assignments d) ->
  run GetAssignment req e d
  = (Ok tt, mkState d [FindOne assignments [("_id", VOid oid)]]
              [mkRes 404 not_found]).
Proof.
  intros Hoid Hf Habs. run_unfold. rewrite Hoid. run_simpl.
  rewrite Hf, db_exec_FindOne by reflexivity. cbn [docs].
  rewrite (find_first_id_unused _ _ _ Habs). reflexivity.
Qed.

Lemma get_assignment_lookup_at req e d oid l1 x l2 :
  ObjectId (req_id req) = Some oid -> db_fault e 0 = None ->
  db_assignments d = l1 ++ x :: l2 ->
  id_unused oid l1 -> doc_field x "_id" = VOid oid ->
  run GetAssignment req e d
  = (Ok tt, mkState d [FindOne assignments [("_id", VOid oid)]]
              [mkRes 200 (VObj x)]).
Proof.
  intros Hoid Hf Hl H1 Hx. run_unfold. rewrite Hoid. run_simpl.
  rewrite Hf, db_exec_FindOne by reflexivity. cbn [docs].
  rewrite Hl, (find_first_id _ _ _ _ _ H1 Hx). reflexivity.
Qed.

(** X6.  [GET /assignment/:id] answers 500 for an id that is not 24
    hexadecimal digits, without asking the store; for a well-formed id whose
    lookup returns, it answers 404 when no assignment has the id and
    otherwise 200 with the first assignment that has it. *)
Theorem get_assignment_lookup req e d :
  (ObjectId (req_id req) = None ->
   run GetAssignment req e d
   = (Ok tt, mkState d [] [mkRes 500 (failure ObjectId_error)]))
  /\ (forall oid,
        ObjectId (req_id req) = Some oid -> db_fault e 0 = None ->
        id_unused oid (db_assignments d) ->
        run GetAssignment req e d
        = (Ok tt, mkState d [FindOne assignments [("_id", VOid oid)]]
                    [mkRes 404 not_found]))
  /\ (forall oid l1 x l2,
        ObjectId (req_id req) = Some oid -> db_fault e 0 = None ->
        db_assignments d = l1 ++ x :: l2 ->
        id_unused oid l1 -> doc_field x "_id" = VOid oid ->
        run GetAssignment req e d
        = (Ok tt, mkState d [FindOne assignments [("_id", VOid oid)]]
                    [mkRes 200 (VObj x)])).
Proof.
  split; [|split].
  - intros Hoid. run_unfold. rewrite Hoid. reflexivity.
  - intros oid. apply get_assignment_missing_at.
  - intros oid l1 x l2. apply get_assignment_lookup_at.
Qed.

Lemma get_assignment_lookup_witness :
  run GetAssignment (anonymous sample_oid [] VUndef) sample_env sample_db
  = (Ok tt, mkState sample_db [FindOne assignments [("_id", VOid sample_oid)]]
              [mkRes 200 (VObj sample_assignment)]).
Proof.
  apply (get_assignment_lookup (anonymous sample_oid [] VUndef)
           sample_env sample_db) with (l1 := []) (l2 := []);
    try reflexivity.
  intros y [].
Defined.

(** ** Inserting an assignment and fetching it *)

Lemma value_eqb_oid_false o f : value_eqb (VOid o) f = false <-> f <> VOid o.
Proof.
  rewrite <- value_eqb_oid. destruct (value_eqb (VOid o) f); intuition congruence.
Qed.

Lemma id_unused_existsb oid l :
  id_unused oid l -> existsb (has_id (VOid oid)) l = false.
Proof.
  intros H. induction l as [|y l IH]; cbn [existsb]; [reflexivity|].
  unfold has_id at 1.
  rewrite (proj2 (value_eqb_oid_false oid (doc_field y "_id")))
    by (apply H; left; reflexivity).
  apply IH. intros z Hz. apply H. right. exact Hz.
Qed.

Lemma obj_remove_absent fs k : obj_has fs k = false -> obj_remove fs k = fs.
Proof.
  induction fs as [|[k' v] fs IH]; cbn; [reflexivity|].
  destruct (String.eqb k k'); cbn; [discriminate|].
  intros H. rewrite IH by exact H. reflexivity.
Qed.

Lemma obj_has_bson_fields fs k : obj_has (bson_fields fs) k = obj_has fs k.
Proof.
  unfold bson_fields.
  induction fs as [|[k' v] fs IH]; cbn; [reflexivity|]. rewrite IH. reflexivity.
Qed.

(** X7.  An authenticated [POST /assignments] whose body is an object
    without [_id] stores the body under the generated id and answers with
    that id; a [GET /assignment/:id] with the answered id then returns the
    stored document. *)
Theorem posted_assignment_can_be_fetched req e d fs req' e' :
  has_bearer req = true -> token_verified e req = true ->
  req_body req = VObj fs -> obj_has fs "_id" = false ->
  db_fault e 0 = None -> id_unused (new_oid e) (db_assignments d) ->
  ObjectId (req_id req') = Some (new_oid e) -> db_fault e' 0 = None ->
  let d1 := set_docs d assignments
              (db_assignments d ++ [stored_doc (new_oid e) fs]) in
  run PostAssignments req e d
  = (Ok tt, mkState d1 [InsertOne assignments (VObj fs)]
              [assignment_created (VOid (new_oid e))])
  /\ run GetAssignment req' e' d1
     = (Ok tt, mkState d1 [FindOne assignments [("_id", VOid (new_oid e))]]
                 [mkRes 200 (VObj (stored_doc (new_oid e) fs))]).
Proof.
  intros Hb Hv Hbody Hid Hf Hfresh Hoid Hf' d1. split.
  - rewrite (run_verified _ _ _ _ Hb Hv). cbn [handler].
    run_unfold. rewrite Hbody. run_simpl. rewrite Hf.
    unfold db_exec, to_document, insert_id.
    rewrite (obj_get_absent _ _ Hid). cbn [docs].
    rewrite (id_unused_existsb _ _ Hfresh).
    rewrite obj_remove_absent by (rewrite obj_has_bson_fields; exact Hid).
    reflexivity.
  - apply (get_assignment_lookup_at req' e' d1 (new_oid e)
             (db_assignments d) (stored_doc (new_oid e) fs) []);
      try assumption; reflexivity.
Qed.

Lemma posted_assignment_can_be_fetched_witness :
  run GetAssignment (anonymous "aaaaaaaaaaaaaaaaaaaaaaaa" [] VUndef) sample_env
    (set_docs sample_db assignments
       (db_assignments sample_db
        ++ [stored_doc "aaaaaaaaaaaaaaaaaaaaaaaa" [("title", VStr "Trees")]]))
  = (Ok tt,
     mkState
       (set_docs sample_db assignments
          (db_assignments sample_db
           ++ [stored_doc "aaaaaaaaaaaaaaaaaaaaaaaa" [("title", VStr "Trees")]]))
       [FindOne assignments [("_id", VOid "aaaaaaaaaaaaaaaaaaaaaaaa")]]
       [mkRes 200
          (VObj (stored_doc "aaaaaaaaaaaaaaaaaaaaaaaa" [("title", VStr "Trees")]))]).
Proof.
  apply (posted_assignment_can_be_fetched
           (signed_in "" [] (VObj [("title", VStr "Trees")]))
           sample_env sample_db [("title", VStr "Trees")]
           (anonymous "aaaaaaaaaaaaaaaaaaaaaaaa" [] VUndef) sample_env);
    try reflexivity.
  intros y [<-|[]]. discriminate.
Defined.

(** ** Deleting an assignment *)

Lemma remove_first_app p l1 x l2 :
  (forall y, In y l1 -> p y = false) -> p x = true ->
  remove_first p (l1 ++ x :: l2) = l1 ++ l2.
Proof.
  intros H1 Hx. induction l1 as [|y l1 IH]; cbn.
  - rewrite Hx. reflexivity.
  - rewrite (H1 y) by (left; reflexivity). rewrite IH; [reflexivity|].
    intros z Hz. apply H1. right. exact Hz.
Qed.

Lemma id_unused_app oid l1 l2 :
  id_unused oid l1 -> id_unused oid l2 -> id_unused oid (l1 ++ l2).
Proof.
  intros H1 H2 y Hy. apply in_app_or in Hy. destruct Hy; auto.
Qed.

(** The handler of [DELETE /assignments/:id] when the email check passes. *)
Lemma delete_assignment_success req e d oid l1 x l2 :
  has_bearer req = true -> token_verified e req = true ->
  ObjectId (req_id req) = Some oid ->
  db_fault e 0 = None -> db_fault e 1 = None ->
  db_assignments d = l1 ++ x :: l2 ->
  id_unused oid l1 -> doc_field x "_id" = VOid oid ->
  strict_eq (creator_email x) (obj_get (req_query req) "email") = true ->
  run DeleteAssignment req e d
  = (Ok tt, mkState (set_docs d assignments (l1 ++ l2))
              [FindOne assignments [("_id", VOid oid)];
               DeleteOne assignments [("_id", VOid oid)]]
              [deleted]).
Proof.
  intros Hb Hv Hoid Hf0 Hf1 Hl H1 Hx Heq.
  rewrite (run_verified _ _ _ _ Hb Hv). cbn [handler].
  unfold delete_assignment, new_ObjectId. rewrite Hoid.
  run_unfold. run_simpl.
  rewrite Hf0, db_exec_FindOne by reflexivity. cbn [docs].
  rewrite Hl, (find_first_id _ _ _ _ _ H1 Hx).
  cbn [truthy negb get_prop]. run_simpl.
  fold (creator_email x). rewrite Heq. cbn [negb]. run_simpl.
  rewrite Hf1, db_exec_DeleteOne by reflexivity. cbn [docs].
  rewrite Hl, (find_first_id _ _ _ _ _ H1 Hx).
  rewrite remove_first_app;
    [|intros y Hy; apply id_filter_fails; apply H1; exact Hy
     |apply id_filter_holds; exact Hx].
  reflexivity.
Qed.

(** X8.  Any request with a verified token deletes an assignment when its
    [email] parameter is the text of the assignment's [creator.email] (the
    identity in the token is not compared with either): the route answers
    [{success: true}] and the assignment is gone, so that, ids being
    unique, looking the id up afterwards answers 404. *)
Theorem delete_with_creator_email req e d oid l1 x l2 s :
  has_bearer req = true -> token_verified e req = true ->
  ObjectId (req_id req) = Some oid ->
  db_fault e 0 = None -> db_fault e 1 = None ->
  db_assignments d = l1 ++ x :: l2 ->
  id_unused oid l1 -> id_unused oid l2 -> doc_field x "_id" = VOid oid ->
  creator_email x = VStr s -> obj_get (req_query req) "email" = VStr s ->
  let d1 := set_docs d assignments (l1 ++ l2) in
  run DeleteAssignment req e d
  = (Ok tt, mkState d1 [FindOne assignments [("_id", VOid oid)];
                        DeleteOne assignments [("_id", VOid oid)]]
              [deleted])
  /\ (forall req' e',
        ObjectId (req_id req') = Some oid -> db_fault e' 0 = None ->
        run GetAssignment req' e' d1
        = (Ok tt, mkState d1 [FindOne assignments [("_id", VOid oid)]]
                    [mkRes 404 not_found])).
Proof.
  intros Hb Hv Hoid Hf0 Hf1 Hl H1 H2 Hx Hc Hq d1. split.
  - apply (delete_assignment_success req e d oid l1 x l2); try assumption.
    rewrite Hc, Hq. cbn [strict_eq]. apply String.eqb_refl.
  - intros req' e' Hoid' Hf'.
    apply (get_assignment_missing_at req' e' d1 oid); try assumption.
    apply id_unused_app; assumption.
Qed.

Lemma delete_with_creator_email_witness :
  run DeleteAssignment full_request sample_env sample_db
  = (Ok tt, mkState (set_docs sample_db assignments [])
              [FindOne assignments [("_id", VOid sample_oid)];
               DeleteOne assignments [("_id", VOid sample_oid)]]
              [deleted]).
Proof.
  apply (delete_with_creator_email full_request sample_env sample_db
           sample_oid [] sample_assignment [] "ann@example.org");
    try reflexivity; intros y [].
Defined.

(** X9.  An assignment without a [creator.email] is deleted by any request
    with a verified token that passes no [email] parameter: the two sides of
    the comparison are both [undefined]. *)
Theorem delete_without_email req e d oid l1 x l2 :
  has_bearer req = true -> token_verified e req = true ->
  ObjectId (req_id req) = Some oid ->
  db_fault e 0 = None -> db_fault e 1 = None ->
  db_assignments d = l1 ++ x :: l2 ->
  id_unused oid l1 -> doc_field x "_id" = VOid oid ->
  obj_has x "creator" = false -> obj_has (req_query req) "email" = false ->
  run DeleteAssignment req e d
  = (Ok tt, mkState (set_docs d assignments (l1 ++ l2))
              [FindOne assignments [("_id", VOid oid)];
               DeleteOne assignments [("_id", VOid oid)]]
              [deleted]).
Proof.
  intros Hb Hv Hoid Hf0 Hf1 Hl H1 Hx Hc Hq.
  apply (delete_assignment_success req e d oid l1 x l2); try assumption.
  unfold creator_email.
  rewrite (obj_get_absent _ _ Hc), (obj_get_absent _ _ Hq). reflexivity.
Qed.

Lemma delete_without_email_witness :
  run DeleteAssignment (signed_in sample_oid [] VUndef) sample_env
    (mkDB [[("_id", VOid sample_oid); ("title", VStr "Graphs")]] [] [])
  = (Ok tt,
     mkState
       (set_docs (mkDB [[("_id", VOid sample_oid); ("title", VStr "Graphs")]] [] [])
          assignments [])
       [FindOne assignments [("_id", VOid sample_oid)];
        DeleteOne assignments [("_id", VOid sample_oid)]]
       [deleted]).
Proof.
  apply (delete_without_email (signed_in sample_oid [] VUndef) sample_env
           (mkDB [[("_id", VOid sample_oid); ("title", VStr "Graphs")]] [] [])
           sample_oid [] [("_id", VOid sample_oid); ("title", VStr "Graphs")] []);
    try reflexivity.
  intros y [].
Defined.

(** ** [$set] on a document *)

Lemma obj_has_set_same fs k v : obj_has (obj_set fs k v) k = true.
Proof.
  induction fs as [|[k' w] fs IH]; cbn.
  - rewrite String.eqb_refl. reflexivity.
  - destruct (String.eqb k k') eqn:E; cbn; rewrite E; [reflexivity | exact IH].
Qed.

Lemma obj_has_set_other fs k k' v :
  k <> k' -> obj_has (obj_set fs k' v) k = obj_has fs k.
Proof.
  intros Hne. apply String.eqb_neq in Hne.
  induction fs as [|[k0 w] fs IH]; cbn.
  - rewrite Hne. reflexivity.
  - destruct (String.eqb k' k0) eqn:E; cbn.
    + apply String.eqb_eq in E. subst k0. reflexivity.
    + rewrite IH. reflexivity.
Qed.

(** Writing the value a property already has changes nothing. *)
Lemma obj_set_noop fs k v :
  obj_has fs k = true -> obj_get fs k = v -> obj_set fs k v = fs.
Proof.
  induction fs as [|[k' w] fs IH]; cbn; [discriminate|].
  destruct (String.eqb k k') eqn:E; cbn.
  - intros _ ->. reflexivity.
  - intros Hh Hg. rewrite IH by assumption. reflexivity.
Qed.

Lemma apply_set_cons k v r x :
  apply_set ((k, v) :: r) x = apply_set r (obj_set x k (bson v)).
Proof. reflexivity. Qed.

(** [$set] leaves the fields it does not name as they are. *)
Lemma apply_set_other sets : forall x k,
  ~ In k (map fst sets) ->
  obj_get (apply_set sets x) k = obj_get x k
  /\ obj_has (apply_set sets x) k = obj_has x k.
Proof.
  induction sets as [|[k0 v0] r IH]; intros x k H; [split; reflexivity|].
  cbn [map fst In] in H. rewrite apply_set_cons.
  destruct (IH (obj_set x k0 (bson v0)) k) as [Hg Hh]; [tauto|].
  rewrite Hg, Hh, obj_get_set_other, obj_has_set_other by (intros ->; tauto).
  split; reflexivity.
Qed.

(** [$set] of distinct fields gives each the value listed for it. *)
Lemma apply_set_named sets : forall x k v,
  NoDup (map fst sets) -> In (k, v) sets ->
  obj_get (apply_set sets x) k = bson v
  /\ obj_has (apply_set sets x) k = true.
Proof.
  induction sets as [|[k0 v0] r IH]; intros x k v Hnd Hin; [destruct Hin|].
  cbn [map fst] in Hnd. inversion Hnd as [|? ? Hnot Hnd']; subst.
  rewrite apply_set_cons. destruct Hin as [Heq|Hin].
  - inversion Heq; subst.
    destruct (apply_set_other r (obj_set x k (bson v)) k Hnot) as [-> ->].
    rewrite obj_get_set_same, obj_has_set_same. split; reflexivity.
  - apply IH; assumption.
Qed.

Lemma apply_set_noop sets : forall x,
  (forall k v, In (k, v) sets -> obj_has x k = true /\ obj_get x k = bson v) ->
  apply_set sets x = x.
Proof.
  induction sets as [|[k0 v0] r IH]; intros x H; [reflexivity|].
  rewrite apply_set_cons.
  destruct (H k0 v0) as [Hh Hg]; [left; reflexivity|].
  rewrite (obj_set_noop x k0 (bson v0) Hh Hg).
  apply IH. intros k v Hin. apply H. right. exact Hin.
Qed.

(** Applying the same [$set] twice is applying it once. *)
Lemma apply_set_idempotent sets x :
  NoDup (map fst sets) ->
  apply_set sets (apply_set sets x) = apply_set sets x.
Proof.
  intros Hnd. apply apply_set_noop. intros k v Hin.
  destruct (apply_set_named sets x k v Hnd Hin) as [Hg Hh]. split; assumption.
Qed.

Lemma value_eqb_refl : forall v, value_eqb v v = true.
Proof.
  fix IH 1. intros [ | |b|n|i| |s|t|o|l|fs]; cbn; try reflexivity.
  - destruct b; reflexivity.
  - apply Z.eqb_refl.
  - destruct i; reflexivity.
  - apply String.eqb_refl.
  - apply Z.eqb_refl.
  - apply String.eqb_refl.
  - revert l. fix IHl 1. intros [|x l]; [reflexivity|].
    rewrite (IH x). cbn [andb]. apply IHl.
  - revert fs. fix IHf 1. intros [|[k x] fs]; [reflexivity|].
    rewrite String.eqb_refl, (IH x). cbn [andb]. apply IHf.
Qed.

Lemma put_fields_distinct req : NoDup (map fst (put_fields req)).
Proof.
  cbn. repeat (constructor; [cbn; intuition discriminate|]). constructor.
Qed.

Lemma patch_fields_distinct req e : NoDup (map fst (patch_fields req e)).
Proof.
  cbn. repeat (constructor; [cbn; intuition discriminate|]). constructor.
Qed.

(** ** Updating an assignment *)

Lemma update_first_app p f l1 x l2 :
  (forall y, In y l1 -> p y = false) -> p x = true ->
  update_first p f (l1 ++ x :: l2) = l1 ++ f x :: l2.
Proof.
  intros H1 Hx. induction l1 as [|y l1 IH]; cbn.
  - rewrite Hx. reflexivity.
  - rewrite (H1 y) by (left; reflexivity). rewrite IH; [reflexivity|].
    intros z Hz. apply H1. right. exact Hz.
Qed.

Lemma update_first_id re f oid l1 x l2 :
  id_unused oid l1 -> doc_field x "_id" = VOid oid ->
  update_first (filter_holds re [("_id", VOid oid)]) f (l1 ++ x :: l2)
  = l1 ++ f x :: l2.
Proof.
  intros H1 Hx. apply update_first_app.
  - intros y Hy. apply id_filter_fails. apply H1. exact Hy.
  - apply id_filter_holds. exact Hx.
Qed.

(** The handler of [PUT /assignments/:id] on a request it can serve. *)
Lemma put_assignment_run req e d oid :
  ObjectId (req_id req) = Some oid -> nullish (req_body req) = false ->
  db_fault e 0 = None ->
  let p := filter_holds (regex_test e) [("_id", VOid oid)] in
  let call := UpdateOne assignments [("_id", VOid oid)]
                [("$set", VObj (put_fields req))] in
  put_assignment req e (mkState d [] [])
  = match find_first p (db_assignments d) with
    | Some x =>
        (Ok tt,
         mkState
           (set_docs d assignments
              (update_first p (apply_set (put_fields req)) (db_assignments d)))
           [call]
           [if doc_eqb (apply_set (put_fields req) x) x
            then nothing_updated else update_succeeded])
    | None => (Ok tt, mkState d [call] [nothing_updated])
    end.
Proof.
  intros Hoid Hb Hf p call. unfold put_assignment, new_ObjectId.
  rewrite Hoid. run_unfold. rewrite !(get_prop_not_nullish _ _ Hb).
  run_simpl. rewrite Hf, db_exec_UpdateOne_set by reflexivity. cbn [docs].
  fold (body_field req "title") (body_field req "description")
    (body_field req "marks") (body_field req "thumbnail")
    (body_field req "difficulty") (body_field req "dueDate").
  fold (put_fields req). fold p.
  destruct (find_first p (db_assignments d)) as [x|]; [|reflexivity].
  cbn [get_prop obj_get String.eqb Ascii.eqb Bool.eqb]. run_simpl.
  destruct (doc_eqb (apply_set (put_fields req) x) x); reflexivity.
Qed.

(** X10.  [PUT /assignments/:id] for an id that no assignment has answers
    400 "Nothing was updated" (not 404) and leaves the store as it is. *)
Theorem put_unknown_id req e d oid :
  has_bearer req = true -> token_verified e req = true ->
  ObjectId (req_id req) = Some oid -> nullish (req_body req) = false ->
  db_fault e 0 = None -> id_unused oid (db_assignments d) ->
  run PutAssignment req e d
  = (Ok tt,
     mkState d [UpdateOne assignments [("_id", VOid oid)]
                  [("$set", VObj (put_fields req))]]
       [nothing_updated]).
Proof.
  intros Hb Hv Hoid Hn Hf Hun.
  rewrite (run_verified _ _ _ _ Hb Hv). cbn [handler].
  rewrite (put_assignment_run req e d oid Hoid Hn Hf). cbn zeta.
  rewrite (find_first_id_unused _ _ _ Hun). reflexivity.
Qed.

Lemma put_unknown_id_witness :
  run PutAssignment
    (signed_in "ffffffffffffffffffffffff" [] (VObj [("title", VStr "Trees")]))
    sample_env sample_db
  = (Ok tt,
     mkState sample_db
       [UpdateOne assignments [("_id", VOid "ffffffffffffffffffffffff")]
          [("$set",
            VObj (put_fields
                    (signed_in "ffffffffffffffffffffffff" []
                       (VObj [("title", VStr "Trees")]))))]]
       [nothing_updated]).
Proof.
  apply (put_unknown_id
           (signed_in "ffffffffffffffffffffffff" [] (VObj [("title", VStr "Trees")]))
           sample_env sample_db "ffffffffffffffffffffffff");
    try reflexivity.
  intros y [<-|[]]. discriminate.
Defined.

(** What a successful update tells about the request and the store. *)
Lemma put_success_inv req e d :
  sent (snd (run PutAssignment req e d)) = [update_succeeded] ->
  exists oid l1 x l2,
    has_bearer req = true
    /\ ObjectId (req_id req) = Some oid
    /\ nullish (req_body req) = false
    /\ db_assignments d = l1 ++ x :: l2
    /\ id_unused oid l1
    /\ doc_field x "_id" = VOid oid
    /\ db (snd (run PutAssignment req e d))
       = set_docs d assignments (l1 ++ apply_set (put_fields req) x :: l2).
Proof.
  unfold run, serve. cbn [uses_verifyToken].
  destruct (verifyToken_outcome req (handler PutAssignment req) e
              (mkState d [] [])) as (H401 & H403 & Hok).
  destruct (has_bearer req);
    [|rewrite H401 by reflexivity; intros H; discriminate H].
  destruct (token_verified e req);
    [|rewrite H403 by reflexivity; intros H; discriminate H].
  rewrite Hok by reflexivity. clear H401 H403 Hok. cbn [handler].
  destruct (ObjectId (req_id req)) as [oid|] eqn:Hoid.
  2: { unfold put_assignment, new_ObjectId. rewrite Hoid.
       intros H; discriminate H. }
  destruct (nullish (req_body req)) eqn:Hn.
  { unfold put_assignment, new_ObjectId. rewrite Hoid. run_unfold.
    rewrite !(get_prop_nullish _ _ Hn). intros H; discriminate H. }
  destruct (db_fault e 0) as [msg|] eqn:Hf.
  { unfold put_assignment, new_ObjectId. rewrite Hoid. run_unfold.
    rewrite !(get_prop_not_nullish _ _ Hn). run_simpl. rewrite Hf.
    intros H; discriminate H. }
  rewrite (put_assignment_run req e d oid Hoid Hn Hf). cbn zeta.
  destruct (find_first _ (db_assignments d)) as [x|] eqn:Hfind;
    [|intros H; discriminate H].
  destruct (doc_eqb _ x); [intros H; discriminate H|]. intros _.
  destruct (find_first_some _ _ _ Hfind) as (l1 & l2 & Hl & Hx & Hl1 & _ & Hu).
  exists oid, l1, x, l2. rewrite Hu. repeat split; auto.
  - intros y Hy. apply (id_filter_fails (regex_test e)). auto.
  - apply id_filter_holds in Hx. exact Hx.
Qed.

(** X11.  Repeating an update that succeeded changes nothing: the same
    [PUT /assignments/:id] on the store the first one left answers 400
    "Nothing was updated" and leaves that store as it is. *)
Theorem put_twice req e d e' :
  responses PutAssignment req e d = [update_succeeded] ->
  token_verified e' req = true -> db_fault e' 0 = None ->
  exists call,
    run PutAssignment req e' (db_after PutAssignment req e d)
    = (Ok tt, mkState (db_after PutAssignment req e d) [call] [nothing_updated]).
Proof.
  unfold responses, db_after. intros Hs Hv' Hf'.
  destruct (put_success_inv req e d Hs)
    as (oid & l1 & x & l2 & Hb & Hoid & Hn & Hl & H1 & Hx & ->).
  rewrite (run_verified _ _ _ _ Hb Hv'). cbn [handler].
  rewrite (put_assignment_run req e' _ oid Hoid Hn Hf'). cbn zeta.
  cbn [set_docs db_assignments].
  assert (Hx' : doc_field (apply_set (put_fields req) x) "_id" = VOid oid).
  { unfold doc_field.
    rewrite (proj1 (apply_set_other (put_fields req) x "_id"
                      ltac:(cbn; intuition discriminate))).
    exact Hx. }
  rewrite (find_first_id _ _ _ _ _ H1 Hx'), (update_first_id _ _ _ _ _ _ H1 Hx').
  rewrite (apply_set_idempotent _ _ (put_fields_distinct req)).
  unfold doc_eqb. rewrite value_eqb_refl.
  eexists. reflexivity.
Qed.

Lemma put_twice_witness :
  exists call,
    run PutAssignment full_request sample_env
      (db_after PutAssignment full_request sample_env sample_db)
    = (Ok tt, mkState (db_after PutAssignment full_request sample_env sample_db)
                [call] [nothing_updated]).
Proof.
  apply (put_twice full_request sample_env sample_db sample_env); reflexivity.
Defined.

(** ** Marking a submission *)

(** The handler of [PATCH /submitted-assignments/:id] on a request it can
    serve. *)
Lemma patch_submitted_run req e d oid :
  ObjectId (req_id req) = Some oid -> nullish (req_body req) = false ->
  db_fault e 0 = None ->
  let p := filter_holds (regex_test e) [("_id", VOid oid)] in
  let call := UpdateOne submittedAssignments [("_id", VOid oid)]
                [("$set", VObj (patch_fields req e))] in
  patch_submitted req e (mkState d [] [])
  = match find_first p (db_submitted d) with
    | Some x =>
        (Ok tt,
         mkState
           (set_docs d submittedAssignments
              (update_first p (apply_set (patch_fields req e)) (db_submitted d)))
           [call]
           [marked (if negb (doc_eqb (apply_set (patch_fields req e) x) x)
                    then 1 else 0)])
    | None => (Ok tt, mkState d [call] [marked 0])
    end.
Proof.
  intros Hoid Hb Hf p call. unfold patch_submitted, new_ObjectId.
  run_unfold. rewrite !(get_prop_not_nullish _ _ Hb). rewrite Hoid.
  run_simpl. rewrite Hf, db_exec_UpdateOne_set by reflexivity. cbn [docs].
  fold (body_field req "obtainedMarks") (body_field req "feedback").
  fold (patch_fields req e). fold p.
  destruct (find_first p (db_submitted d)) as [x|]; reflexivity.
Qed.

(** X12.  [PATCH /submitted-assignments/:id] answers 200 with
    [success: true] whether or not a submission has the id: with
    [modifiedCount] 0 and the store unchanged when none has, and otherwise
    with the first submission of that id given [obtainedMarks] and
    [feedback] from the body, the status ["completed"] and [markedAt], its
    other fields and all other submissions being as before. *)
Theorem patch_marks_submission req e d oid :
  has_bearer req = true -> token_verified e req = true ->
  ObjectId (req_id req) = Some oid -> nullish (req_body req) = false ->
  db_fault e 0 = None ->
  let call := UpdateOne submittedAssignments [("_id", VOid oid)]
                [("$set", VObj (patch_fields req e))] in
  (id_unused oid (db_submitted d) ->
   run PatchSubmitted req e d = (Ok tt, mkState d [call] [marked 0]))
  /\ (forall l1 x l2,
        db_submitted d = l1 ++ x :: l2 ->
        id_unused oid l1 -> doc_field x "_id" = VOid oid ->
        exists x' n,
          (n = 0 \/ n = 1)%Z
          /\ run PatchSubmitted req e d
             = (Ok tt,
                mkState (set_docs d submittedAssignments (l1 ++ x' :: l2))
                  [call] [marked n])
          /\ (forall k v, In (k, v) (patch_fields req e) ->
                          obj_get x' k = bson v)
          /\ (forall k, ~ In k (map fst (patch_fields req e)) ->
                        obj_get x' k = obj_get x k)).
Proof.
  intros Hb Hv Hoid Hn Hf call. split.
  - intros Hun. rewrite (run_verified _ _ _ _ Hb Hv). cbn [handler].
    rewrite (patch_submitted_run req e d oid Hoid Hn Hf). cbn zeta.
    rewrite (find_first_id_unused _ _ _ Hun). reflexivity.
  - intros l1 x l2 Hl H1 Hx.
    exists (apply_set (patch_fields req e) x).
    exists (if negb (doc_eqb (apply_set (patch_fields req e) x) x)
            then 1%Z else 0%Z).
    split; [destruct (negb _); auto|]. split; [|split].
    + rewrite (run_verified _ _ _ _ Hb Hv). cbn [handler].
      rewrite (patch_submitted_run req e d oid Hoid Hn Hf). cbn zeta.
      rewrite Hl, (find_first_id _ _ _ _ _ H1 Hx),
        (update_first_id _ _ _ _ _ _ H1 Hx). reflexivity.
    + intros k v Hin.
      apply (apply_set_named _ x k v (patch_fields_distinct req e) Hin).
    + intros k Hk. apply (apply_set_other _ x k Hk).
Qed.

Lemma patch_marks_submission_witness :
  run PatchSubmitted
    (signed_in "ffffffffffffffffffffffff" [] (VObj [("feedback", VStr "ok")]))
    sample_env sample_db
  = (Ok tt,
     mkState sample_db
       [UpdateOne submittedAssignments
          [("_id", VOid "ffffffffffffffffffffffff")]
          [("$set",
            VObj (patch_fields
                    (signed_in "ffffffffffffffffffffffff" []
                       (VObj [("feedback", VStr "ok")])) sample_env))]]
       [marked 0]).
Proof.
  apply (patch_marks_submission
           (signed_in "ffffffffffffffffffffffff" [] (VObj [("feedback", VStr "ok")]))
           sample_env sample_db "ffffffffffffffffffffffff");
    try reflexivity.
  intros y [<-|[]]. discriminate.
Defined.

(** ** The lists of submissions *)

Lemma db_exec_Find_all re fresh c f d :
  filter_supported f = true ->
  db_exec re fresh (Find c f [] 0 0) d
  = (Ok (VArr (map VObj (List.filter (filter_holds re f) (docs d c)))), d).
Proof. intros H. unfold db_exec. rewrite H. reflexivity. Qed.

Lemma value_eqb_str_false s f : value_eqb (VStr s) f = false <-> f <> VStr s.
Proof.
  rewrite <- value_eqb_str. destruct (value_eqb (VStr s) f); intuition congruence.
Qed.

Lemma own_filter_holds re s x :
  filter_holds re (own_filter (VStr s)) x = true
  <-> doc_field x "userEmail" = VStr s.
Proof. apply equality_cond_holds. Qed.

Lemma pending_filter_holds re s x :
  filter_holds re (pending_filter (VStr s)) x = true
  <-> doc_field x "status" = VStr "pending"
      /\ doc_field x "userEmail" <> VStr s.
Proof.
  assert (E : filter_holds re (pending_filter (VStr s)) x
              = value_eqb (VStr "pending") (doc_field x "status")
                && (negb (value_eqb (VStr s) (doc_field x "userEmail")) && true))
    by reflexivity.
  rewrite E, andb_true_r, andb_true_iff, negb_true_iff.
  rewrite value_eqb_str, value_eqb_str_false. reflexivity.
Qed.

Lemma get_submitted_run req e d s :
  has_bearer req = true -> token_verified e req = true ->
  obj_get (req_query req) "email" = VStr s -> s <> "" ->
  db_fault e 0 = None ->
  run GetSubmitted req e d
  = (Ok tt,
     mkState d [Find submittedAssignments (own_filter (VStr s)) [] 0 0]
       [mkRes 200
          (VArr (map VObj
             (List.filter (filter_holds (regex_test e) (own_filter (VStr s)))
                (db_submitted d))))]).
Proof.
  intros Hb Hv Hs Hne Hf. rewrite (run_verified _ _ _ _ Hb Hv). cbn [handler].
  unfold get_submitted. rewrite Hs. cbn [truthy].
  apply String.eqb_neq in Hne. rewrite Hne. cbn [negb].
  run_unfold. run_simpl. rewrite Hf, db_exec_Find_all by reflexivity.
  reflexivity.
Qed.

Lemma get_pending_run req e d s :
  has_bearer req = true -> token_verified e req = true ->
  obj_get (req_query req) "email" = VStr s -> s <> "" ->
  db_fault e 0 = None ->
  run GetPendingSubmitted req e d
  = (Ok tt,
     mkState d [Find submittedAssignments (pending_filter (VStr s)) [] 0 0]
       [mkRes 200
          (VArr (map VObj
             (List.filter (filter_holds (regex_test e) (pending_filter (VStr s)))
                (db_submitted d))))]).
Proof.
  intros Hb Hv Hs Hne Hf. rewrite (run_verified _ _ _ _ Hb Hv). cbn [handler].
  unfold get_pending_submitted. rewrite Hs. cbn [truthy].
  apply String.eqb_neq in Hne. rewrite Hne. cbn [negb].
  run_unfold. run_simpl. rewrite Hf, db_exec_Find_all by reflexivity.
  reflexivity.
Qed.





(** ** Pages of reviews and of the leaderboard *)

Lemma or_default_nonzero n dflt :
  dflt <> 0%Z -> or_default n dflt <> Fin 0 /\ or_default n dflt <> NaN.
Proof.
  intros Hd. unfold or_default. destruct n as [x| |].
  - destruct (Z.eqb x 0) eqn:E; (split; [|discriminate]); intros H;
      injection H as H; [|apply Z.eqb_neq in E]; contradiction.
  - split; discriminate.
  - split; [|discriminate]. intros H. injection H as H. contradiction.
Qed.

(** An integer below [2^53] is a double. *)
Lemma round_double_small z : (Z.abs z < 2 ^ 53)%Z -> round_double z = Fin z.
Proof.
  intros H. unfold round_double. cbv zeta. apply Z.ltb_lt in H. rewrite H.
  reflexivity.
Qed.

(** [(p - 1) * l] is computed exactly as long as it stays below [2^53]. *)
Lemma js_skip_exact p l :
  l <> 0%Z -> (Z.abs ((p - 1) * l) < 2 ^ 53)%Z ->
  js_mul (js_sub (Fin p) (Fin 1)) (Fin l) = Fin ((p - 1) * l).
Proof.
  intros Hl H. cbn [js_sub]. rewrite round_double_small by nia.
  cbn [js_mul]. apply round_double_small. exact H.
Qed.

Lemma limit_docs_length l xs :
  l <> 0%Z -> length (limit_docs l xs) <= Z.to_nat (Z.abs l).
Proof.
  intros Hl. unfold limit_docs. apply Z.eqb_neq in Hl. rewrite Hl.
  destruct (Z.ltb l 0) eqn:E.
  - apply Z.ltb_lt in E. rewrite length_firstn. lia.
  - apply Z.ltb_ge in E. rewrite length_firstn. lia.
Qed.

Lemma insert_by_In le x l y : In y (insert_by le x l) <-> y = x \/ In y l.
Proof.
  induction l as [|z l IH]; cbn; [intuition|].
  destruct (le x z); cbn; [intuition|]. rewrite IH. intuition.
Qed.

Lemma sort_by_In le l y : In y (sort_by le l) <-> In y l.
Proof.
  unfold sort_by. induction l as [|x l IH]; cbn; [tauto|].
  rewrite insert_by_In, IH. intuition.
Qed.

Lemma In_firstn {A : Type} n (l : list A) x : In x (firstn n l) -> In x l.
Proof.
  intros H. rewrite <- (firstn_skipn n l). apply in_or_app. left. exact H.
Qed.

Lemma In_skipn {A : Type} n (l : list A) x : In x (skipn n l) -> In x l.
Proof.
  intros H. rewrite <- (firstn_skipn n l). apply in_or_app. right. exact H.
Qed.

Lemma limit_docs_In l xs x : In x (limit_docs l xs) -> In x xs.
Proof.
  unfold limit_docs. destruct (Z.eqb l 0); [tauto|].
  destruct (Z.ltb l 0); apply In_firstn.
Qed.

(** X15.  [GET /reviews] never asks for an unlimited page: [limit] is the
    number [parseInt] reads in the query, or 12 when that is [NaN] or 0;
    [page] likewise, with 1.  [skip] is the double [(page - 1) * limit],
    which is that product itself as long as it is below [2^53].  For
    [skip] and [limit] finite: when [skip] is negative the store rejects
    the call and, there being no [try], nothing is answered; when both fit
    64 bits and the call succeeds, the answer holds at most [|limit|]
    reviews, all of them reviews of the store. *)
Theorem get_reviews_page req e d :
  db_fault e 0 = None ->
  let limit := reviews_limit (req_query req) in
  let page := reviews_page (req_query req) in
  let skip := reviews_skip (req_query req) in
  let call := Find reviews [] newest_first skip limit in
  limit <> Fin 0 /\ limit <> NaN /\ page <> Fin 0 /\ page <> NaN
  /\ (forall p l, page = Fin p -> limit = Fin l ->
        (Z.abs ((p - 1) * l) < 2 ^ 53)%Z -> skip = Fin ((p - 1) * l))
  /\ (forall s l, skip = Fin s -> limit = Fin l -> (s < 0)%Z ->
        exists msg, run GetReviews req e d = (Throw msg, mkState d [call] []))
  /\ (forall s l, skip = Fin s -> limit = Fin l ->
        (0 <= s < int64_bound)%Z -> (Z.abs l < int64_bound)%Z ->
        exists rs,
          run GetReviews req e d
          = (Ok tt, mkState d [call] [mkRes 200 (VArr (map VObj rs))])
          /\ length rs <= Z.to_nat (Z.abs l)
          /\ forall x, In x rs -> In x (db_reviews d)).
Proof.
  intros Hf limit page skip call.
  destruct (or_default_nonzero (parseInt (obj_get (req_query req) "limit")) 12)
    as [Hl0 HlN]; [discriminate|].
  destruct (or_default_nonzero (parseInt (obj_get (req_query req) "page")) 1)
    as [Hp0 HpN]; [discriminate|].
  fold (reviews_limit (req_query req)) in Hl0, HlN. fold limit in Hl0, HlN.
  fold (reviews_page (req_query req)) in Hp0, HpN. fold page in Hp0, HpN.
  assert (Hrun : run GetReviews req e d
                 = match db_exec (regex_test e) (new_oid e) call d with
                   | (Ok v, d') => (Ok tt, mkState d' [call] [mkRes 200 v])
                   | (Throw msg, _) => (Throw msg, mkState d [call] [])
                   end).
  { run_unfold. run_simpl. rewrite Hf.
    fold (reviews_limit (req_query req)) (reviews_page (req_query req)).
    fold (reviews_skip (req_query req)). fold skip limit.
    change (Find reviews [] [("createdAt", VNum (-1))] skip limit) with call.
    destruct (db_exec (regex_test e) (new_oid e) call d) as [[v|msg] d'];
      reflexivity. }
  repeat (split; [assumption|]). split; [|split].
  - intros p l Hp Hl H. unfold skip, reviews_skip. fold page limit.
    rewrite Hp, Hl. apply js_skip_exact; [|exact H].
    intros ->. apply Hl0. exact Hl.
  - intros s l Hs Hl Hneg. apply Z.ltb_lt in Hneg. eexists.
    rewrite Hrun. unfold call. rewrite Hs, Hl. unfold db_exec.
    cbn [filter_supported forallb negb]. rewrite Hneg. reflexivity.
  - intros s l Hs Hl [Hpos _] _. apply Z.ltb_ge in Hpos.
    exists (limit_docs l
              (skipn (Z.to_nat s)
                 (sort_by (fun x y => bson_leb (doc_field y "createdAt")
                                        (doc_field x "createdAt"))
                    (List.filter (filter_holds (regex_test e) []) (db_reviews d))))).
    split; [|split].
    + rewrite Hrun. unfold call. rewrite Hs, Hl. unfold db_exec.
      cbn [filter_supported forallb negb]. rewrite Hpos. reflexivity.
    + apply limit_docs_length. intros ->. apply Hl0. exact Hl.
    + intros x Hx. apply limit_docs_In, In_skipn in Hx.
      apply sort_by_In in Hx. apply filter_In in Hx. apply Hx.
Qed.

Lemma get_reviews_page_witness :
  exists msg,
    run GetReviews (anonymous "" [("page", VStr "-1")] VUndef) sample_env sample_db
    = (Throw msg,
       mkState sample_db
         [Find reviews [] newest_first
            (reviews_skip [("page", VStr "-1")])
            (reviews_limit [("page", VStr "-1")])] []).
Proof.
  destruct (get_reviews_page (anonymous "" [("page", VStr "-1")] VUndef)
              sample_env sample_db eq_refl) as (_ & _ & _ & _ & _ & H & _).
  apply (H (-24)%Z 12%Z); [reflexivity | reflexivity | lia].
Defined.

Lemma group_add_sizes gs key x :
  group_sizes (group_add gs key x) = S (group_sizes gs).
Proof.
  induction gs as [|[k ds] gs IH]; cbn [group_add group_sizes snd length];
    [reflexivity|].
  destruct (value_eqb k key); cbn [group_sizes snd].
  - rewrite length_app. cbn [length]. lia.
  - rewrite IH. lia.
Qed.

Lemma group_add_nonempty gs key x :
  (forall g, In g gs -> snd g <> []) ->
  forall g, In g (group_add gs key x) -> snd g <> [].
Proof.
  induction gs as [|[k ds] gs IH]; cbn; intros H g Hg.
  - destruct Hg as [<-|[]]. discriminate.
  - destruct (value_eqb k key); cbn in Hg; destruct Hg as [<-|Hg].
    + cbn. destruct ds; discriminate.
    + apply H. right. exact Hg.
    + apply (H (k, ds)). left. reflexivity.
    + apply IH; [|exact Hg]. intros g' Hg'. apply H. right. exact Hg'.
Qed.

(** Every group holds at least one document, and the groups together hold
    as many as the collection. *)
Lemma group_by_sizes key l :
  group_sizes (group_by key l) = length l
  /\ forall g, In g (group_by key l) -> snd g <> [].
Proof.
  unfold group_by.
  assert (H : forall gs,
             (forall g, In g gs -> snd g <> []) ->
             group_sizes (fold_left (fun gs d => group_add gs (key d) d) l gs)
             = group_sizes gs + length l
             /\ forall g,
                  In g (fold_left (fun gs d => group_add gs (key d) d) l gs) ->
                  snd g <> []).
  { induction l as [|x l IH]; intros gs Hgs; cbn [fold_left length].
    - split; [lia | exact Hgs].
    - destruct (IH (group_add gs (key x) x)
                  (group_add_nonempty gs (key x) x Hgs)) as [H1 H2].
      rewrite H1, group_add_sizes. split; [lia | exact H2]. }
  destruct (H [] (fun g Hg => match Hg with end)) as [H1 H2].
  split; [exact H1 | exact H2].
Qed.

Lemma group_size_le gs g : In g gs -> length (snd g) <= group_sizes gs.
Proof.
  induction gs as [|g' gs IH]; cbn [In group_sizes];
    [intros []|intros [<-|H]].
  - lia.
  - apply IH in H. lia.
Qed.

Lemma group_docs_leaderboard gs :
  group_docs leaderboard_accs gs = Some (map group_entry gs).
Proof.
  induction gs as [|[key ds] gs IH]; [reflexivity|].
  cbn [group_docs map]. rewrite IH.
  destruct ds; reflexivity.
Qed.

(** The pipeline of the leaderboard on a collection. *)
Lemma leaderboard_pipeline_run skip l :
  run_pipeline (leaderboard_pipeline skip 10) l
  = match skip with
    | Fin s =>
        if Z.ltb s 0 || Z.leb int64_bound s then None
        else Some (firstn 10
                     (skipn (Z.to_nat s)
                        (sort_by (fun x y =>
                                    bson_leb (doc_field y "assignmentCount")
                                      (doc_field x "assignmentCount"))
                           (map group_entry (group_by creator_key l)))))
    | _ => None
    end.
Proof.
  unfold leaderboard_pipeline. cbn [run_pipeline].
  change (run_stage _ l)
    with (group_docs leaderboard_accs (group_by creator_key l)).
  rewrite group_docs_leaderboard.
  change (run_stage (VObj [("$sort", VObj [("assignmentCount", VNum (-1))])])
            (map group_entry (group_by creator_key l)))
    with (Some (sort_by (fun x y => bson_leb (doc_field y "assignmentCount")
                                      (doc_field x "assignmentCount"))
                  (map group_entry (group_by creator_key l)))).
  destruct skip as [s| |]; cbn [num_value run_stage String.eqb Ascii.eqb Bool.eqb];
    [|reflexivity|reflexivity].
  destruct (Z.ltb s 0 || Z.leb int64_bound s); reflexivity.
Qed.

(** X16.  [GET /leaderboard] answers pages of at most 10 lines; each line
    is [{_id, name, assignmentCount}] for one creator email, with a count
    between 1 and the number of assignments.  [page] is the number
    [parseInt] reads in the query, or 1 when that is [NaN] or 0, and
    [$skip] is the double [(page - 1) * 10], which is that product itself
    as long as it is below [2^53].  The page is answered when [$skip] is a
    number from 0 that fits 64 bits; when it is negative, beyond 64 bits,
    an infinity or [NaN], the store rejects the pipeline and, there being
    no [try], nothing is answered. *)
Theorem get_leaderboard_page req e d :
  db_fault e 0 = None ->
  let page := leaderboard_page (req_query req) in
  let skip := leaderboard_skip (req_query req) in
  let call := Aggregate assignments (leaderboard_pipeline skip 10) in
  page <> Fin 0 /\ page <> NaN
  /\ (forall p, page = Fin p -> (Z.abs ((p - 1) * 10) < 2 ^ 53)%Z ->
        skip = Fin ((p - 1) * 10))
  /\ ((forall s, skip = Fin s -> (s < 0)%Z \/ (int64_bound <= s)%Z) ->
      exists msg, run GetLeaderboard req e d = (Throw msg, mkState d [call] []))
  /\ (forall s, skip = Fin s -> (0 <= s < int64_bound)%Z ->
      exists l,
        run GetLeaderboard req e d
        = (Ok tt, mkState d [call] [mkRes 200 (VArr (map VObj l))])
        /\ length l <= 10
        /\ forall x, In x l ->
             exists key name n,
               x = leaderboard_entry key name n
               /\ (1 <= n <= Z.of_nat (length (db_assignments d)))%Z).
Proof.
  intros Hf page skip call.
  destruct (or_default_nonzero (parseInt (obj_get (req_query req) "page")) 1)
    as [Hp0 HpN]; [discriminate|].
  fold (leaderboard_page (req_query req)) in Hp0, HpN. fold page in Hp0, HpN.
  assert (Hrun : run GetLeaderboard req e d
                 = match run_pipeline (leaderboard_pipeline skip 10)
                           (db_assignments d) with
                   | Some l => (Ok tt, mkState d [call] [mkRes 200 (VArr (map VObj l))])
                   | None => (Throw "unsupported aggregation stage",
                              mkState d [call] [])
                   end).
  { run_unfold. run_simpl. rewrite Hf. unfold db_exec. cbn [docs].
    fold (leaderboard_page (req_query req)).
    fold (leaderboard_skip (req_query req)). fold skip. fold call.
    destruct (run_pipeline _ _); reflexivity. }
  rewrite Hrun, leaderboard_pipeline_run.
  split; [exact Hp0|]. split; [exact HpN|]. split; [|split].
  - intros p Hp H. unfold skip, leaderboard_skip. fold page. rewrite Hp.
    apply js_skip_exact; [discriminate | exact H].
  - intros Hout. destruct skip as [s| |]; try (eexists; reflexivity).
    assert (Hs : Z.ltb s 0 || Z.leb int64_bound s = true).
    { apply orb_true_iff. rewrite Z.ltb_lt, Z.leb_le. apply Hout. reflexivity. }
    rewrite Hs. eexists. reflexivity.
  - intros s Hs [Hpos Hfit].
    assert (Hin : Z.ltb s 0 || Z.leb int64_bound s = false).
    { apply orb_false_iff. rewrite Z.ltb_ge, Z.leb_gt. split; assumption. }
    rewrite Hs, Hin. eexists. split; [reflexivity|]. split.
    + apply firstn_le_length.
    + intros x Hx. apply In_firstn, In_skipn in Hx. apply sort_by_In in Hx.
      apply in_map_iff in Hx. destruct Hx as ([key ds] & <- & Hg).
      exists key, (first_name ds), (1 * Z.of_nat (length ds))%Z.
      split; [reflexivity|].
      destruct (group_by_sizes creator_key (db_assignments d)) as [Hsum Hne].
      pose proof (group_size_le _ _ Hg) as Hle. rewrite Hsum in Hle.
      pose proof (Hne _ Hg) as Hds. cbn [snd] in Hle, Hds.
      destruct ds; [congruence|]. cbn [length] in *. lia.
Qed.

Lemma get_leaderboard_page_witness :
  exists msg,
    run GetLeaderboard (anonymous "" [("page", VStr "-1")] VUndef)
      sample_env sample_db
    = (Throw msg,
       mkState sample_db
         [Aggregate assignments
            (leaderboard_pipeline (leaderboard_skip [("page", VStr "-1")]) 10)]
         []).
Proof.
  destruct (get_leaderboard_page (anonymous "" [("page", VStr "-1")] VUndef)
              sample_env sample_db eq_refl) as (_ & _ & _ & H & _).
  apply H. intros s Hs. left. injection Hs as <-. lia.
Defined.

(** ** A submission from creation to marking *)

(** The handler of [POST /submitted-assignments] on an object without
    [_id]. *)
Lemma post_submitted_run req e d fs :
  has_bearer req = true -> token_verified e req = true ->
  req_body req = VObj fs -> obj_has fs "_id" = false ->
  db_fault e 0 = None -> id_unused (new_oid e) (db_submitted d) ->
  run PostSubmitted req e d
  = (Ok tt,
     mkState
       (set_docs d submittedAssignments
          (db_submitted d ++ [stored_doc (new_oid e) (submission_doc fs e)]))
       [InsertOne submittedAssignments (VObj (submission_doc fs e))]
       [mkRes 200 (VObj [("success", VBool true);
                         ("insertedId", VOid (new_oid e))])]).
Proof.
  intros Hb Hv Hbody Hid Hf Hfresh.
  assert (Hhas : obj_has (submission_doc fs e) "_id" = false).
  { unfold submission_doc. rewrite !obj_has_set_other by discriminate. exact Hid. }
  rewrite (run_verified _ _ _ _ Hb Hv). cbn [handler].
  run_unfold. rewrite Hbody. cbn [spread]. run_simpl. rewrite Hf.
  fold (submission_doc fs e).
  unfold db_exec, to_document, insert_id.
  rewrite (obj_get_absent _ _ Hhas). cbn [docs].
  rewrite (id_unused_existsb _ _ Hfresh).
  rewrite obj_remove_absent by (rewrite obj_has_bson_fields; exact Hhas).
  reflexivity.
Qed.

Lemma stored_submission_fields fs e s :
  obj_get fs "userEmail" = VStr s ->
  doc_field (stored_doc (new_oid e) (submission_doc fs e)) "userEmail" = VStr s
  /\ doc_field (stored_doc (new_oid e) (submission_doc fs e)) "status"
     = VStr "pending".
Proof.
  intros Hs. unfold doc_field, stored_doc, submission_doc.
  cbn [obj_get String.eqb Ascii.eqb Bool.eqb]. split.
  - rewrite (obj_get_bson_fields _ "userEmail" (VStr s));
      [reflexivity| |reflexivity|discriminate].
    rewrite !obj_get_set_other by discriminate. exact Hs.
  - rewrite (obj_get_bson_fields _ "status" (VStr "pending"));
      [reflexivity| |reflexivity|discriminate].
    rewrite obj_get_set_other by discriminate. apply obj_get_set_same.
Qed.

(** X17.  A submission posted with the [userEmail] [s] is stored with the
    status ["pending"]; from then on it is in the list [GET
    /submitted-assignments] returns for [s], and in the list [GET
    /pending-submitted-assignments] returns for any other email. *)
Theorem posted_submission_is_listed req e d fs s req' e' s' :
  has_bearer req = true -> token_verified e req = true ->
  req_body req = VObj fs -> obj_has fs "_id" = false ->
  obj_get fs "userEmail" = VStr s -> s <> "" ->
  db_fault e 0 = None -> id_unused (new_oid e) (db_submitted d) ->
  has_bearer req' = true -> token_verified e' req' = true ->
  obj_get (req_query req') "email" = VStr s' -> s' <> "" ->
  db_fault e' 0 = None ->
  let x := stored_doc (new_oid e) (submission_doc fs e) in
  let d1 := db_after PostSubmitted req e d in
  db_submitted d1 = db_submitted d ++ [x]
  /\ (s' = s ->
      exists l, responses GetSubmitted req' e' d1
                = [mkRes 200 (VArr (map VObj l))] /\ In x l)
  /\ (s' <> s ->
      exists l, responses GetPendingSubmitted req' e' d1
                = [mkRes 200 (VArr (map VObj l))] /\ In x l).
Proof.
  intros Hb Hv Hbody Hid Hs Hne Hf Hfresh Hb' Hv' Hq Hne' Hf' x d1.
  assert (Hd1 : d1 = set_docs d submittedAssignments (db_submitted d ++ [x])).
  { unfold d1, db_after.
    rewrite (post_submitted_run req e d fs Hb Hv Hbody Hid Hf Hfresh).
    reflexivity. }
  destruct (stored_submission_fields fs e s Hs) as [Hmail Hstatus].
  fold x in Hmail, Hstatus.
  assert (Hin : In x (db_submitted d1)).
  { rewrite Hd1. cbn [set_docs db_submitted]. apply in_or_app. right.
    left. reflexivity. }
  split; [rewrite Hd1; reflexivity|]. split.
  - intros ->. eexists. unfold responses.
    rewrite (get_submitted_run req' e' d1 s Hb' Hv' Hq Hne' Hf').
    split; [reflexivity|]. apply filter_In. split; [exact Hin|].
    apply own_filter_holds. exact Hmail.
  - intros Hdiff. eexists. unfold responses.
    rewrite (get_pending_run req' e' d1 s' Hb' Hv' Hq Hne' Hf').
    split; [reflexivity|]. apply filter_In. split; [exact Hin|].
    apply pending_filter_holds. split; [exact Hstatus|].
    rewrite Hmail. congruence.
Qed.

Lemma posted_submission_is_listed_witness :
  db_submitted
    (db_after PostSubmitted
       (signed_in "" [] (VObj [("userEmail", VStr "cy@example.org")]))
       sample_env (mkDB [] [] []))
  = [] ++ [stored_doc (new_oid sample_env)
             (submission_doc [("userEmail", VStr "cy@example.org")] sample_env)].
Proof.
  apply (posted_submission_is_listed
           (signed_in "" [] (VObj [("userEmail", VStr "cy@example.org")]))
           sample_env (mkDB [] [] []) [("userEmail", VStr "cy@example.org")]
           "cy@example.org"
           (signed_in "" [("email", VStr "cy@example.org")] VUndef)
           sample_env "cy@example.org");
    try reflexivity; try discriminate.
  intros y [].
Defined.

(** X18.  Marking takes a submission out of the pending lists and adds none
    to them: whatever the [PATCH /submitted-assignments/:id] request, every
    submission a later [GET /pending-submitted-assignments] returns was
    stored, as it is, before the request, and the document the request
    wrote is not among them. *)
Theorem marking_only_shrinks_pending req e d req' e' s :
  has_bearer req' = true -> token_verified e' req' = true ->
  obj_get (req_query req') "email" = VStr s -> s <> "" ->
  db_fault e' 0 = None ->
  exists l,
    responses GetPendingSubmitted req' e' (db_after PatchSubmitted req e d)
    = [mkRes 200 (VArr (map VObj l))]
    /\ forall x, In x l ->
         In x (db_submitted d)
         /\ doc_field x "status" = VStr "pending"
         /\ ~ written_by PatchSubmitted e x.
Proof.
  intros Hb' Hv' Hq Hne' Hf'. eexists. unfold responses.
  rewrite (get_pending_run req' e' _ s Hb' Hv' Hq Hne' Hf').
  split; [reflexivity|].
  intros x Hx. apply filter_In in Hx. destruct Hx as [Hin Hp].
  apply pending_filter_holds in Hp. destruct Hp as [Hst _].
  assert (Hnot : ~ written_by PatchSubmitted e x).
  { intros [Hc _]. unfold doc_field in Hst. rewrite Hc in Hst.
    discriminate Hst. }
  split; [|split; assumption].
  destruct (patch_submitted_writes req e d x Hin) as [Hold|Hnew];
    [exact Hold | contradiction].
Qed.

Lemma marking_only_shrinks_pending_witness :
  exists l,
    responses GetPendingSubmitted
      (signed_in "" [("email", VStr "ann@example.org")] VUndef) sample_env
      (db_after PatchSubmitted
         (signed_in sample_oid [] (VObj [("obtainedMarks", VNum 9)]))
         sample_env sample_db)
    = [mkRes 200 (VArr (map VObj l))]
    /\ forall x, In x l ->
         In x (db_submitted sample_db)
         /\ doc_field x "status" = VStr "pending"
         /\ ~ written_by PatchSubmitted sample_env x.
Proof.
  apply (marking_only_shrinks_pending
           (signed_in sample_oid [] (VObj [("obtainedMarks", VNum 9)]))
           sample_env sample_db
           (signed_in "" [("email", VStr "ann@example.org")] VUndef)
           sample_env "ann@example.org");
    try reflexivity.
  discriminate.
Defined.

(** ** A review from creation to the first page *)

(** The handler of [POST /reviews] on a valid review. *)
Lemma post_reviews_run req e d :
  nullish (req_body req) = false ->
  truthy (body_field req "name") && truthy (body_field req "email")
  && truthy (body_field req "text") = true ->
  db_fault e 0 = None -> id_unused (new_oid e) (db_reviews d) ->
  db (snd (run PostReviews req e d))
  = set_docs d reviews (db_reviews d ++ [stored_review req e]).
Proof.
  intros Hb Ht Hf Hfresh. run_unfold. rewrite !(get_prop_not_nullish _ _ Hb).
  fold (body_field req "name") (body_field req "email")
    (body_field req "text") (body_field req "image").
  rewrite <- !negb_andb, Ht. cbn [negb]. run_simpl. rewrite Hf.
  unfold db_exec, to_document, insert_id.
  cbn [obj_get String.eqb Ascii.eqb Bool.eqb]. cbn [docs].
  rewrite (id_unused_existsb _ _ Hfresh). reflexivity.
Qed.

(** A document that sorts before all the others heads the sorted list. *)
Lemma sort_by_newest le l x :
  (forall y, In y l -> le y x = false) ->
  sort_by le (l ++ [x]) = x :: sort_by le l.
Proof.
  unfold sort_by. intros H. rewrite fold_right_app. cbn [fold_right insert_by].
  induction l as [|y l IH]; [reflexivity|].
  cbn [fold_right]. rewrite IH by (intros z Hz; apply H; right; exact Hz).
  cbn [insert_by]. rewrite (H y) by (left; reflexivity). reflexivity.
Qed.

(** X19.  A review posted later than every stored review (by [createdAt])
    heads the first page of [GET /reviews], whatever the page size, as
    long as that is a finite number that fits 64 bits. *)
Theorem posted_review_heads_first_page req e d req' e' l :
  nullish (req_body req) = false ->
  truthy (body_field req "name") && truthy (body_field req "email")
  && truthy (body_field req "text") = true ->
  db_fault e 0 = None -> id_unused (new_oid e) (db_reviews d) ->
  (forall y, In y (db_reviews d) ->
             bson_leb (VDate (now e)) (doc_field y "createdAt") = false) ->
  reviews_page (req_query req') = 1%Z ->
  reviews_limit (req_query req') = Fin l -> (Z.abs l < int64_bound)%Z ->
  db_fault e' 0 = None ->
  exists rs,
    responses GetReviews req' e' (db_after PostReviews req e d)
    = [mkRes 200 (VArr (VObj (stored_review req e) :: rs))].
Proof.
  intros Hb Ht Hf Hfresh Hold Hpage Hlimit _ Hf'.
  unfold db_after. rewrite (post_reviews_run req e d Hb Ht Hf Hfresh).
  unfold responses. run_unfold. run_simpl. rewrite Hf'.
  fold (reviews_limit (req_query req')) (reviews_page (req_query req')).
  rewrite Hpage, Hlimit.
  change (js_mul (js_sub 1%Z 1%Z) l) with (round_double (0 * l)).
  rewrite round_double_small by (cbn; lia).
  unfold db_exec. cbn [filter_supported forallb negb Z.mul Z.ltb Z.compare].
  cbn [docs set_docs db_reviews].
  rewrite filter_all by reflexivity.
  cbn [sort_docs Z.eqb Pos.eqb].
  rewrite sort_by_newest.
  2: { intros y Hy. apply Hold. exact Hy. }
  cbn [Z.to_nat skipn].
  destruct (or_default_nonzero (parseInt (obj_get (req_query req') "limit")) 12)
    as [Hl0 _]; [discriminate|].
  fold (reviews_limit (req_query req')) in Hl0. rewrite Hlimit in Hl0.
  assert (Hl : l <> 0%Z) by (intros ->; apply Hl0; reflexivity).
  assert (Hhead : exists rs,
            limit_docs l
              (stored_review req e
               :: sort_by (fun x y => bson_leb (doc_field y "createdAt")
                                        (doc_field x "createdAt"))
                    (db_reviews d))
            = stored_review req e :: rs).
  { unfold limit_docs. apply Z.eqb_neq in Hl. rewrite Hl.
    apply Z.eqb_neq in Hl. destruct (Z.ltb l 0) eqn:E.
    - apply Z.ltb_lt in E.
      destruct (Z.to_nat (Z.min (- l) 101)) as [|n] eqn:Hn; [lia|].
      eexists. reflexivity.
    - apply Z.ltb_ge in E.
      destruct (Z.to_nat l) as [|n] eqn:Hn; [lia|].
      eexists. reflexivity. }
  destruct Hhead as [rs Hrs]. exists (map VObj rs).
  fold (stored_review req e). rewrite Hrs. reflexivity.
Qed.

Lemma posted_review_heads_first_page_witness :
  exists rs,
    responses GetReviews (anonymous "" [("limit", VStr "3")] VUndef) sample_env
      (db_after PostReviews
         (anonymous "" []
            (VObj [("name", VStr "Ann"); ("email", VStr "ann@example.org");
                   ("text", VStr "Nice")]))
         sample_env
         (mkDB [] [[("_id", VOid sample_oid); ("createdAt", VDate 10)]] []))
    = [mkRes 200
         (VArr (VObj (stored_review
                        (anonymous "" []
                           (VObj [("name", VStr "Ann");
                                  ("email", VStr "ann@example.org");
                                  ("text", VStr "Nice")]))
                        sample_env) :: rs))].
Proof.
  apply (posted_review_heads_first_page
           (anonymous "" []
              (VObj [("name", VStr "Ann"); ("email", VStr "ann@example.org");
                     ("text", VStr "Nice")]))
           sample_env
           (mkDB [] [[("_id", VOid sample_oid); ("createdAt", VDate 10)]] [])
           (anonymous "" [("limit", VStr "3")] VUndef) sample_env 3%Z);
    try reflexivity.
  - intros y [<-|[]]. discriminate.
  - intros y [<-|[]]. reflexivity.
Defined.

(** ** Requests the handlers cannot serve *)

(** X20.  A request without a parsed body ([req.body] is [undefined]): [PUT
    /assignments/:id] reads the body inside its [try] and answers 500;
    [PATCH /submitted-assignments/:id] reads it before its [try], so the
    error leaves the handler and nothing is answered.  Neither asks the
    store anything. *)
Theorem missing_body_put_and_patch req e d :
  has_bearer req = true -> token_verified e req = true ->
  nullish (req_body req) = true ->
  (exists msg,
     run PutAssignment req e d
     = (Ok tt, mkState d [] [mkRes 500 (failure msg)]))
  /\ (exists msg, run PatchSubmitted req e d = (Throw msg, mkState d [] [])).
Proof.
  intros Hb Hv Hn. rewrite !(run_verified _ _ _ _ Hb Hv). cbn [handler]. split.
  - unfold put_assignment, new_ObjectId.
    destruct (ObjectId (req_id req)); run_unfold;
      rewrite ?(get_prop_nullish _ _ Hn); eexists; reflexivity.
  - run_unfold. rewrite !(get_prop_nullish _ _ Hn). eexists. reflexivity.
Qed.

Lemma missing_body_put_and_patch_witness :
  exists msg,
    run PatchSubmitted (signed_in sample_oid [] VUndef) sample_env sample_db
    = (Throw msg, mkState sample_db [] []).
Proof.
  apply (missing_body_put_and_patch (signed_in sample_oid [] VUndef)
           sample_env sample_db); reflexivity.
Defined.

(** X21.  An id that is not 24 hexadecimal digits is answered 500 with the
    driver's message by [PUT] and [DELETE /assignments/:id] and, given a
    body, by [PATCH /submitted-assignments/:id], before any database
    call. *)
Theorem malformed_id_is_500 r req e d :
  r = PutAssignment \/ r = DeleteAssignment \/ r = PatchSubmitted ->
  has_bearer req = true -> token_verified e req = true ->
  (r = PatchSubmitted -> nullish (req_body req) = false) ->
  ObjectId (req_id req) = None ->
  run r req e d = (Ok tt, mkState d [] [mkRes 500 (failure ObjectId_error)]).
Proof.
  intros Hr Hb Hv Hn Hoid. rewrite (run_verified _ _ _ _ Hb Hv).
  destruct Hr as [-> | [-> | ->]]; cbn [handler].
  - run_unfold. rewrite Hoid. reflexivity.
  - run_unfold. rewrite Hoid. reflexivity.
  - run_unfold. rewrite !(get_prop_not_nullish _ _ (Hn eq_refl)), Hoid.
    reflexivity.
Qed.

Lemma malformed_id_is_500_witness :
  run DeleteAssignment (signed_in "42" [] (VObj [])) sample_env sample_db
  = (Ok tt, mkState sample_db [] [mkRes 500 (failure ObjectId_error)]).
Proof.
  apply (malformed_id_is_500 DeleteAssignment (signed_in "42" [] (VObj []))
           sample_env sample_db); try reflexivity.
  right. left. reflexivity.
Defined.

(** ** C9: the status of a submission *)

(** The one call of [POST /submitted-assignments], whatever the body and
    whatever the store answers. *)
Lemma post_submitted_calls req e d :
  has_bearer req = true -> token_verified e req = true ->
  calls (snd (run PostSubmitted req e d))
  = [InsertOne submittedAssignments
       (VObj (submission_doc (spread (req_body req)) e))].
Proof.
  intros Hb Hv. rewrite (run_verified _ _ _ _ Hb Hv). cbn [handler].
  unfold submission_doc. run_cases; reflexivity.
Qed.

(** The handler of [POST /submitted-assignments] on any body. *)
Lemma post_submitted_run_any req e d :
  has_bearer req = true -> token_verified e req = true ->
  db_fault e 0 = None ->
  let fs := submission_doc (spread (req_body req)) e in
  let id := insert_id (new_oid e) fs in
  (forall y, In y (db_submitted d) -> has_id id y = false) ->
  db (snd (run PostSubmitted req e d))
  = set_docs d submittedAssignments
      (db_submitted d ++ [("_id", id) :: obj_remove (bson_fields fs) "_id"]).
Proof.
  intros Hb Hv Hf fs id Hfresh.
  assert (Hex : existsb (has_id id) (db_submitted d) = false).
  { destruct (existsb (has_id id) (db_submitted d)) eqn:E; [|reflexivity].
    apply existsb_exists in E. destruct E as (y & Hy & E).
    rewrite (Hfresh y Hy) in E. discriminate E. }
  rewrite (run_verified _ _ _ _ Hb Hv). cbn [handler].
  run_unfold. run_simpl. rewrite Hf.
  fold (submission_doc (spread (req_body req)) e). fold fs.
  unfold db_exec. cbn [to_document docs]. fold id. rewrite Hex.
  reflexivity.
Qed.

(** What the stored submission carries. *)
Lemma stored_submission_written fs e id :
  written_by PostSubmitted e
    (("_id", id) :: obj_remove (bson_fields (submission_doc fs e)) "_id").
Proof.
  unfold submission_doc.
  cbn [written_by obj_get String.eqb Ascii.eqb Bool.eqb].
  rewrite !obj_get_remove_other by discriminate. split.
  - apply obj_get_bson_fields; [|reflexivity|discriminate].
    rewrite obj_get_set_other by discriminate. apply obj_get_set_same.
  - apply obj_get_bson_fields; [|reflexivity|discriminate].
    apply obj_get_set_same.
Qed.

(** The one call of [PATCH /submitted-assignments/:id] on a request it can
    serve, whatever the store answers. *)
Lemma patch_submitted_calls req e d oid :
  has_bearer req = true -> token_verified e req = true ->
  ObjectId (req_id req) = Some oid -> nullish (req_body req) = false ->
  calls (snd (run PatchSubmitted req e d))
  = [UpdateOne submittedAssignments [("_id", VOid oid)]
       [("$set", VObj (patch_fields req e))]].
Proof.
  intros Hb Hv Hoid Hn. rewrite (run_verified _ _ _ _ Hb Hv). cbn [handler].
  unfold patch_fields, body_field, get_prop_opt. run_unfold.
  rewrite !(get_prop_not_nullish _ _ Hn), Hoid. run_simpl.
  destruct (db_fault e 0); [reflexivity|].
  destruct (db_exec _ _ _ _) as [[v|msg] d']; [|reflexivity].
  destruct (get_prop v "modifiedCount"); reflexivity.
Qed.

(** C9.  [POST /submitted-assignments], past [verifyToken], issues one
    call: the insertion of the body's properties with the status
    ["pending"] and [submittedAt], whatever status the body carries; the
    store accepting it, the submissions are those before and, last, the new
    one with that status and time.  [PATCH /submitted-assignments/:id], on
    a well-formed id and a body, issues one call: an update whose [$set]
    holds the status ["completed"] and [markedAt]; the store accepting it,
    the first submission with the id is replaced by one with that status
    and time, the others staying.  A request leaves in the submissions only
    documents that were there before and documents so written, and no
    other route writes a submission.  Hence every request preserves that
    all submissions have the status ["pending"] or ["completed"]. *)
Theorem submission_status_invariant r req e d :
  (forall x, In x (db_submitted (db (snd (run r req e d)))) ->
             In x (db_submitted d) \/ written_by r e x)
  /\ (forall x, written_by r e x -> status_ok x = true)
  /\ (status_invariant d -> status_invariant (db (snd (run r req e d))))
  /\ (has_bearer req = true -> token_verified e req = true ->
      let fs := submission_doc (spread (req_body req)) e in
      obj_get fs "status" = VStr "pending"
      /\ obj_get fs "submittedAt" = VDate (now e)
      /\ calls (snd (run PostSubmitted req e d))
         = [InsertOne submittedAssignments (VObj fs)]
      /\ (db_fault e 0 = None ->
          (forall y, In y (db_submitted d) ->
                     has_id (insert_id (new_oid e) fs) y = false) ->
          exists x,
            db_submitted (db (snd (run PostSubmitted req e d)))
            = db_submitted d ++ [x]
            /\ written_by PostSubmitted e x))
  /\ (has_bearer req = true -> token_verified e req = true ->
      forall oid,
        ObjectId (req_id req) = Some oid -> nullish (req_body req) = false ->
        let sets := patch_fields req e in
        obj_get sets "status" = VStr "completed"
        /\ obj_get sets "markedAt" = VDate (now e)
        /\ calls (snd (run PatchSubmitted req e d))
           = [UpdateOne submittedAssignments [("_id", VOid oid)]
                [("$set", VObj sets)]]
        /\ (db_fault e 0 = None ->
            forall l1 x l2,
              db_submitted d = l1 ++ x :: l2 ->
              id_unused oid l1 -> doc_field x "_id" = VOid oid ->
              exists x',
                db_submitted (db (snd (run PatchSubmitted req e d)))
                = l1 ++ x' :: l2
                /\ written_by PatchSubmitted e x')).
Proof.
  assert (Hw : forall x, In x (db_submitted (db (snd (run r req e d)))) ->
                         In x (db_submitted d) \/ written_by r e x).
  { intros x.
    destruct r;
      try apply post_submitted_writes; try apply patch_submitted_writes;
      rewrite other_routes_keep_submitted by discriminate; auto. }
  split; [exact Hw|]. split; [apply written_status_ok|]. split; [|split].
  - intros Hinv x Hx. destruct (Hw x Hx) as [Hold|Hnew].
    + apply Hinv. exact Hold.
    + eapply written_status_ok. exact Hnew.
  - intros Hb Hv fs. split; [|split; [|split]].
    + unfold fs, submission_doc.
      rewrite obj_get_set_other by discriminate. apply obj_get_set_same.
    + apply obj_get_set_same.
    + apply post_submitted_calls; assumption.
    + intros Hf Hfresh.
      exists (("_id", insert_id (new_oid e) fs)
              :: obj_remove (bson_fields fs) "_id").
      split; [|apply stored_submission_written].
      rewrite (post_submitted_run_any req e d Hb Hv Hf Hfresh).
      destruct d; reflexivity.
  - intros Hb Hv oid Hoid Hn sets. split; [reflexivity|].
    split; [reflexivity|]. split.
    + apply patch_submitted_calls; assumption.
    + intros Hf l1 x l2 Hl H1 Hx.
      exists (apply_set (patch_fields req e) x). split.
      * rewrite (run_verified _ _ _ _ Hb Hv). cbn [handler].
        rewrite (patch_submitted_run req e d oid Hoid Hn Hf). cbn zeta.
        rewrite Hl, (find_first_id _ _ _ _ _ H1 Hx),
          (update_first_id _ _ _ _ _ _ H1 Hx).
        destruct d; reflexivity.
      * split.
        -- apply (apply_set_named _ x "status" (VStr "completed")
                    (patch_fields_distinct req e)).
           cbn. tauto.
        -- apply (apply_set_named _ x "markedAt" (VDate (now e))
                    (patch_fields_distinct req e)).
           cbn. tauto.
Qed.

Lemma submission_status_invariant_witness :
  status_invariant
    (db (snd (run PostSubmitted
                (signed_in "" [] (VObj [("status", VStr "graded")]))
                sample_env sample_db)))
  /\ exists x,
       db_submitted
         (db (snd (run PostSubmitted
                     (signed_in "" [] (VObj [("status", VStr "graded")]))
                     sample_env sample_db)))
       = db_submitted sample_db ++ [x]
       /\ written_by PostSubmitted sample_env x.
Proof.
  destruct (submission_status_invariant PostSubmitted
              (signed_in "" [] (VObj [("status", VStr "graded")]))
              sample_env sample_db) as (_ & _ & Hinv & Hpost & _).
  split.
  - apply Hinv. intros x [<-|[]]. reflexivity.
  - destruct (Hpost eq_refl eq_refl) as (_ & _ & _ & Hdb).
    apply (Hdb eq_refl). intros y [<-|[]]. reflexivity.
Defined.
